(** * comex_silver_tracker: a shallow embedding of [comex_silver_tracker.py]

    The script downloads the daily COMEX silver stocks spreadsheet, extracts
    the report date and three totals, appends a derived row to a CSV ledger
    and moves the spreadsheet into a dated archive file.

    Modelling conventions.
    - Python [str] values are Rocq strings of ASCII characters.
    - A Python [float] is a [pyfloat]: a rational (finite values are taken as
      exact, binary rounding error is not modelled) or one of the special
      values nan, inf, -inf, which do change the control flow of the script.
    - Exceptions are values of [exn]; code that can raise lives in [res] or
      in the state-and-exception monad [M] over the file system [World].
    - A spreadsheet is the table of the [str()] images of its cells: the
      script only ever looks at cells through [astype(str)] and [str(val)]. *)

From Stdlib Require Import ZArith QArith Qround Qfield Lqa String Ascii List Lia.
From stdpp Require Import gmap strings.
Import ListNotations.

Local Open Scope Z_scope.
Local Open Scope string_scope.

(** ** Exceptions and results *)

Inductive exn : Type :=
| IndexError
| ValueError
| TypeError
| AttributeError
| OverflowError
| ZeroDivisionError
| FileNotFoundError
| RequestException
| SystemExit.

(** [except Exception] catches everything but [SystemExit], which derives
    from [BaseException] only. *)
Definition is_Exception (e : exn) : bool :=
  match e with
  | SystemExit => false
  | _ => true
  end.

Inductive res (A : Type) : Type :=
| Ok (a : A)
| Raise (e : exn).
Arguments Ok {A} a.
Arguments Raise {A} e.

(** Sequencing: an exception raised by the first computation skips the
    rest. Written [x ← c; k] below. *)
#[global] Instance res_bind : MBind res :=
  fun A B (f : A -> res B) (x : res A) =>
    match x with
    | Ok a => f a
    | Raise e => Raise e
    end.

(** ** Python strings *)

Module PyStr.

Definition is_digit (c : ascii) : bool :=
  let n := nat_of_ascii c in ((48 <=? n) && (n <=? 57))%nat.

Definition digit_val (c : ascii) : Z := Z.of_nat (nat_of_ascii c) - 48.

Definition digit_char (d : Z) : ascii := ascii_of_nat (Z.to_nat (48 + d)).

(** [str.isspace] on ASCII: tab, LF, VT, FF, CR, the separators
    0x1c..0x1f and the space. *)
Definition is_space (c : ascii) : bool :=
  let n := nat_of_ascii c in
  ((n =? 32) || ((9 <=? n) && (n <=? 13)) || ((28 <=? n) && (n <=? 31)))%nat.

Fixpoint lstrip (s : string) : string :=
  match s with
  | String c t => if is_space c then lstrip t else s
  | EmptyString => EmptyString
  end.

Fixpoint rev_string (acc s : string) : string :=
  match s with
  | String c t => rev_string (String c acc) t
  | EmptyString => acc
  end.

Definition rstrip (s : string) : string :=
  rev_string EmptyString (lstrip (rev_string EmptyString s)).

(** [s.strip()] *)
Definition strip (s : string) : string := rstrip (lstrip s).

(** [s.replace(c, '')] for a one-character [c] *)
Fixpoint remove_char (c : ascii) (s : string) : string :=
  match s with
  | String a t => if Ascii.eqb a c then remove_char c t else String a (remove_char c t)
  | EmptyString => EmptyString
  end.

Definition lower_char (c : ascii) : ascii :=
  let n := nat_of_ascii c in
  if ((65 <=? n) && (n <=? 90))%nat then ascii_of_nat (n + 32) else c.

Fixpoint lower (s : string) : string :=
  match s with
  | String c t => String (lower_char c) (lower t)
  | EmptyString => EmptyString
  end.

(** [needle in hay] *)
Fixpoint contains (needle hay : string) : bool :=
  String.prefix needle hay ||
  match hay with
  | String _ t => contains needle t
  | EmptyString => false
  end.

(** [re.search(label, s, re.IGNORECASE)] for a label without regex
    metacharacters, as [Series.str.contains(label, case=False)] does. *)
Definition contains_nocase (label s : string) : bool :=
  contains (lower label) (lower s).

(** [sep.join(l)] *)
Fixpoint join (sep : string) (l : list string) : string :=
  match l with
  | [] => ""
  | [x] => x
  | x :: t => x +:+ sep +:+ join sep t
  end.

(** The text of [s] before its suffix [rest]. *)
Definition consumed (s rest : string) : string :=
  String.substring 0 (String.length s - String.length rest) s.

Fixpoint all_digits (s : string) : bool :=
  match s with
  | String c t => is_digit c && all_digits t
  | EmptyString => true
  end.

(** [int(s)] for a string of ASCII digits *)
Fixpoint int_of_digits (acc : Z) (s : string) : Z :=
  match s with
  | String c t => int_of_digits (acc * 10 + digit_val c) t
  | EmptyString => acc
  end.

(** Decimal digits of a natural number, most significant first; [fuel]
    bounds the number of digits. *)
Fixpoint digits_of (fuel : nat) (n : Z) (acc : string) : string :=
  match fuel with
  | O => acc
  | S fuel' =>
      let acc' := String (digit_char (n mod 10)) acc in
      if (n / 10 =? 0)%Z then acc' else digits_of fuel' (n / 10) acc'
  end.

(** [str(n)] for a Python [int] *)
Definition str_int (n : Z) : string :=
  let body := digits_of (S (Z.to_nat (Z.log2 (Z.abs n)))) (Z.abs n) "" in
  if (n <? 0)%Z then String "-" body else body.

(** ["%02d" % n] and ["%04d" % n] for [0 <= n] within range *)
Definition pad2 (n : Z) : string :=
  String (digit_char (n / 10 mod 10)) (String (digit_char (n mod 10)) "").

Definition pad4 (n : Z) : string :=
  String (digit_char (n / 1000 mod 10))
    (String (digit_char (n / 100 mod 10)) (pad2 n)).

Fixpoint zeros (n : nat) : string :=
  match n with
  | O => ""
  | S n' => String "0" (zeros n')
  end.

Fixpoint strip_trailing_zeros_rev (s : string) : string :=
  match s with
  | String c t => if Ascii.eqb c "0" then strip_trailing_zeros_rev t else s
  | EmptyString => EmptyString
  end.

(** [s.rstrip('0')] *)
Definition rstrip_zeros (s : string) : string :=
  rev_string "" (strip_trailing_zeros_rev (rev_string "" s)).

End PyStr.

(** ** Python floats *)

Module PyFloat.
Import PyStr.

Inductive pyfloat : Type :=
| Fin (q : Q)            (* a finite value, kept in lowest terms *)
| NaN
| Inf (negative : bool).

Definition of_Z (n : Z) : pyfloat := Fin (n # 1).

Definition is_finite (x : pyfloat) : bool :=
  match x with
  | Fin _ => true
  | _ => false
  end.

Definition qneg (q : Q) : bool := (Qnum q <? 0)%Z.
Definition qzero (q : Q) : bool := (Qnum q =? 0)%Z.

(** [x != 0]; nan and the infinities differ from 0. *)
Definition ne_zero (x : pyfloat) : bool :=
  match x with
  | Fin q => negb (qzero q)
  | _ => true
  end.

(** [x - y] *)
Definition sub (x y : pyfloat) : pyfloat :=
  match x, y with
  | NaN, _ | _, NaN => NaN
  | Inf a, Inf b => if Bool.eqb a b then NaN else Inf a
  | Inf a, Fin _ => Inf a
  | Fin _, Inf b => Inf (negb b)
  | Fin p, Fin q => Fin (Qred (p - q))
  end.

(** [x * y] *)
Definition mul (x y : pyfloat) : pyfloat :=
  match x, y with
  | NaN, _ | _, NaN => NaN
  | Inf a, Inf b => Inf (xorb a b)
  | Inf a, Fin q | Fin q, Inf a => if qzero q then NaN else Inf (xorb a (qneg q))
  | Fin p, Fin q => Fin (Qred (p * q))
  end.

(** [x / y]; a zero divisor raises whatever the dividend is. *)
Definition div (x y : pyfloat) : res pyfloat :=
  match y with
  | Fin q =>
      if qzero q then Raise ZeroDivisionError
      else match x with
           | Fin p => Ok (Fin (Qred (p / q)))
           | NaN => Ok NaN
           | Inf a => Ok (Inf (xorb a (qneg q)))
           end
  | NaN => Ok NaN
  | Inf b =>
      match x with
      | Fin _ => Ok (Fin 0)
      | _ => Ok NaN
      end
  end.

(** Round to the nearest integer, ties to the even one. *)
Definition round_half_even (q : Q) : Z :=
  let f := Qfloor q in
  match ((q - inject_Z f) ?= (1 # 2))%Q with
  | Lt => f
  | Gt => f + 1
  | Eq => if Z.even f then f else f + 1
  end.

Definition pow10 (n : nat) : Q := inject_Z (10 ^ Z.of_nat n).

(** [round(x, n)] for [0 <= n]: a float again; nan and the infinities
    pass through. *)
Definition round_nd (x : pyfloat) (n : nat) : pyfloat :=
  match x with
  | Fin q => Fin (Qred (inject_Z (round_half_even (q * pow10 n)) / pow10 n))
  | _ => x
  end.

(** [round(x)]: a Python [int]; nan and the infinities raise. *)
Definition round_int (x : pyfloat) : res Z :=
  match x with
  | Fin q => Ok (round_half_even q)
  | NaN => Raise ValueError
  | Inf _ => Raise OverflowError
  end.

(** *** [float(s)]

    The grammar of the Python reference:
    floatvalue ::= [sign] (floatnumber | "inf" | "infinity" | "nan"),
    floatnumber ::= number [exponent],
    number ::= [digitpart] "." digitpart | digitpart ["."],
    digitpart ::= digit (["_"] digit)*,
    exponent ::= ("e" | "E") [sign] digitpart,
    surrounded by optional whitespace. *)

Fixpoint digitpart_tail (acc : Z) (n : nat) (s : string) : Z * nat * string :=
  match s with
  | String c t =>
      if is_digit c then digitpart_tail (acc * 10 + digit_val c) (S n) t
      else if Ascii.eqb c "_" then
        match t with
        | String c' t' =>
            if is_digit c'
            then digitpart_tail (acc * 10 + digit_val c') (S n) t'
            else (acc, n, s)
        | EmptyString => (acc, n, s)
        end
      else (acc, n, s)
  | EmptyString => (acc, n, s)
  end.

Definition digitpart (s : string) : option (Z * nat * string) :=
  match s with
  | String c t =>
      if is_digit c then Some (digitpart_tail (digit_val c) 1 t) else None
  | EmptyString => None
  end.

Definition starts_with (c : ascii) (s : string) : option string :=
  match s with
  | String a t => if Ascii.eqb a c then Some t else None
  | EmptyString => None
  end.

Definition number (s : string) : option (Q * string) :=
  match digitpart s with
  | Some (i, _, rest) =>
      match starts_with "." rest with
      | Some rest' =>
          match digitpart rest' with
          | Some (f, n, rest'') =>
              Some ((inject_Z i + inject_Z f / pow10 n)%Q, rest'')
          | None => Some (inject_Z i, rest')
          end
      | None => Some (inject_Z i, rest)
      end
  | None =>
      match starts_with "." s with
      | Some rest' =>
          match digitpart rest' with
          | Some (f, n, rest'') => Some ((inject_Z f / pow10 n)%Q, rest'')
          | None => None
          end
      | None => None
      end
  end.

Definition split_sign (s : string) : bool * string :=
  match s with
  | String c t =>
      if Ascii.eqb c "-" then (true, t)
      else if Ascii.eqb c "+" then (false, t)
      else (false, s)
  | EmptyString => (false, s)
  end.

Definition scale (q : Q) (e : Z) : Q :=
  (if (0 <=? e)%Z then q * inject_Z (10 ^ e) else q / inject_Z (10 ^ (- e)))%Q.

Definition floatnumber (s : string) : option Q :=
  match number s with
  | Some (q, EmptyString) => Some q
  | Some (q, String c t) =>
      if Ascii.eqb c "e" || Ascii.eqb c "E" then
        let '(neg, t') := split_sign t in
        match digitpart t' with
        | Some (e, _, EmptyString) => Some (scale q (if neg then - e else e))
        | _ => None
        end
      else None
  | None => None
  end.

Definition float_of_string (s : string) : res pyfloat :=
  let '(neg, body) := split_sign (strip s) in
  let l := lower body in
  if String.eqb l "inf" || String.eqb l "infinity" then Ok (Inf neg)
  else if String.eqb l "nan" then Ok NaN
  else match floatnumber body with
       | Some q => Ok (Fin (Qred (if neg then - q else q)))
       | None => Raise ValueError
       end.

(** *** [str(x)]

    [repr] style: the significant digits (at most 17, which is exact for
    every value the script formats), in positional notation when the
    decimal point falls within [-4 < decpt <= 16] and in exponent
    notation otherwise. *)

(** The smallest [k] with [1 <= q * 10^k], for [0 < q < 1]. *)
Fixpoint lead (fuel : nat) (q : Q) (k : Z) : Z :=
  match fuel with
  | O => k
  | S fuel' => if Qle_bool 1 q then k else lead fuel' (q * 10) (k + 1)
  end.

(** Position of the decimal point: [10^(decpt-1) <= q < 10^decpt]. *)
Definition decpt (q : Q) : Z :=
  if Qle_bool 1 q then Z.of_nat (String.length (str_int (Qfloor q)))
  else 1 - lead (S (Z.to_nat (Z.log2 (Zpos (Qden q))))) q 0.

Definition str_exponent (e : Z) : string :=
  let body := str_int (Z.abs e) in
  String "e" (String (if (e <? 0)%Z then "-" else "+")%char
    (if (Z.abs e <? 10)%Z then String "0" body else body)).

Definition str_positive (q : Q) : string :=
  let p0 := decpt q in
  let n0 := round_half_even (q * Qpower 10 (17 - p0)) in
  let '(n, p) := if (10 ^ 17 <=? n0)%Z then (n0 / 10, p0 + 1) else (n0, p0) in
  let ds := rstrip_zeros (str_int n) in
  let len := Z.of_nat (String.length ds) in
  if ((16 <? p) || (p <? -3))%Z then
    String.substring 0 1 ds
    +:+ (if (1 <? len)%Z
         then String "." (String.substring 1 (String.length ds - 1) ds)
         else "")
    +:+ str_exponent (p - 1)
  else if (p <=? 0)%Z then "0." +:+ zeros (Z.to_nat (- p)) +:+ ds
  else if (len <=? p)%Z then ds +:+ zeros (Z.to_nat (p - len)) +:+ ".0"
  else String.substring 0 (Z.to_nat p) ds +:+ "."
       +:+ String.substring (Z.to_nat p) (String.length ds - Z.to_nat p) ds.

Definition str_float (x : pyfloat) : string :=
  match x with
  | NaN => "nan"
  | Inf neg => if neg then "-inf" else "inf"
  | Fin q =>
      if qzero q then "0.0"
      else if qneg q then String "-" (str_positive (- q))
      else str_positive q
  end.

End PyFloat.

(** ** Regular expressions

    A backtracking matcher in continuation-passing style with the priorities
    of Python's [re]: alternatives are tried left to right and a bounded
    repetition is greedy. Named groups record the text they matched. *)

Module Re.
Import PyStr.

Inductive regex : Type :=
| Chr (c : ascii)                  (* a literal character *)
| Range (lo hi : ascii)            (* [lo-hi] *)
| Cat (r1 r2 : regex)              (* r1 r2 *)
| Alt (r1 r2 : regex)              (* r1|r2 *)
| Rep (r : regex) (lo hi : nat)    (* r{lo,hi} *)
| Grp (name : string) (r : regex). (* (?P<name>r) *)

Definition groups := list (string * string).

Definition in_range (lo hi c : ascii) : bool :=
  ((nat_of_ascii lo <=? nat_of_ascii c) && (nat_of_ascii c <=? nat_of_ascii hi))%nat.

Section Matcher.
Context {R : Type}.

Definition cont := string -> groups -> option R.

Fixpoint rep (step : string -> groups -> cont -> option R)
    (lo hi : nat) (s : string) (g : groups) (k : cont) : option R :=
  match hi with
  | O => if (lo =? 0)%nat then k s g else None
  | S hi' =>
      match step s g (fun s' g' => rep step (Nat.pred lo) hi' s' g' k) with
      | Some x => Some x
      | None => if (lo =? 0)%nat then k s g else None
      end
  end.

Fixpoint rmatch (r : regex) (s : string) (g : groups) (k : cont) : option R :=
  match r with
  | Chr c =>
      match s with
      | String a t => if Ascii.eqb a c then k t g else None
      | EmptyString => None
      end
  | Range lo hi =>
      match s with
      | String a t => if in_range lo hi a then k t g else None
      | EmptyString => None
      end
  | Cat r1 r2 => rmatch r1 s g (fun s' g' => rmatch r2 s' g' k)
  | Alt r1 r2 =>
      match rmatch r1 s g k with
      | Some x => Some x
      | None => rmatch r2 s g k
      end
  | Rep r' lo hi => rep (fun s' g' k' => rmatch r' s' g' k') lo hi s g k
  | Grp name r' =>
      rmatch r' s g (fun s' g' => k s' ((name, consumed s s') :: g'))
  end.
End Matcher.

(** [re.match(r, s)]: the text left after the match and the groups. *)
Definition re_match (r : regex) (s : string) : option (string * groups) :=
  rmatch r s [] (fun s' g => Some (s', g)).

(** [re.search(r, s)]: the leftmost match; its text and the groups. *)
Fixpoint re_search (r : regex) (s : string) : option (string * groups) :=
  match re_match r s with
  | Some (s', g) => Some (consumed s s', g)
  | None =>
      match s with
      | String _ t => re_search r t
      | EmptyString => None
      end
  end.

Fixpoint group (name : string) (g : groups) : option string :=
  match g with
  | (n, v) :: g' => if String.eqb n name then Some v else group name g'
  | [] => None
  end.

Definition digit : regex := Range "0" "9".

Fixpoint cat (l : list regex) (last : regex) : regex :=
  match l with
  | [] => last
  | r :: l' => Cat r (cat l' last)
  end.

Fixpoint alt (l : list regex) (last : regex) : regex :=
  match l with
  | [] => last
  | r :: l' => Alt r (alt l' last)
  end.

(** [r"\d{1,2}/\d{1,2}/\d{4}"] *)
Definition date_shape : regex :=
  cat [Rep digit 1 2; Chr "/"; Rep digit 1 2; Chr "/"] (Rep digit 4 4).

(** [r"(\d{1,2}/\d{1,2}/\d{4})"] *)
Definition date_pattern : regex := Grp "1" date_shape.

(** The language of a regex: the strings it can match in full. *)
Inductive matches : regex -> string -> Prop :=
| matches_Chr c : matches (Chr c) (String c "")
| matches_Range lo hi c :
    in_range lo hi c = true -> matches (Range lo hi) (String c "")
| matches_Cat r1 r2 s1 s2 :
    matches r1 s1 -> matches r2 s2 -> matches (Cat r1 r2) (s1 +:+ s2)
| matches_Alt_l r1 r2 s : matches r1 s -> matches (Alt r1 r2) s
| matches_Alt_r r1 r2 s : matches r2 s -> matches (Alt r1 r2) s
| matches_Rep_stop r hi : matches (Rep r 0 hi) ""
| matches_Rep_more r lo hi s1 s2 :
    matches r s1 -> matches (Rep r (Nat.pred lo) hi) s2 ->
    matches (Rep r lo (S hi)) (s1 +:+ s2)
| matches_Grp name r s : matches r s -> matches (Grp name r) s.

Fixpoint no_groups (r : regex) : bool :=
  match r with
  | Chr _ | Range _ _ => true
  | Cat r1 r2 | Alt r1 r2 => no_groups r1 && no_groups r2
  | Rep r' _ _ => no_groups r'
  | Grp _ _ => false
  end.

(** A date as the pattern words it: one or two digits, a slash, one or two
    digits, a slash, four digits. *)
Definition one_or_two_digits (s : string) : bool :=
  all_digits s && ((String.length s =? 1) || (String.length s =? 2))%nat.

Definition four_digits (s : string) : bool :=
  all_digits s && (String.length s =? 4)%nat.

Definition date_shaped (s : string) : Prop :=
  exists m d y,
    s = m +:+ "/" +:+ d +:+ "/" +:+ y /\
    one_or_two_digits m = true /\
    one_or_two_digits d = true /\
    four_digits y = true.

(** [s[i:]] *)
Fixpoint drop_chars (i : nat) (s : string) : string :=
  match i, s with
  | S i', String _ t => drop_chars i' t
  | _, _ => s
  end.

End Re.

(** ** [datetime.strptime] and [strftime] *)

Module DateTime.
Import PyStr Re.

Record datetime : Type := { year : Z; month : Z; day : Z }.

(** The directives of [_strptime.py] that the script uses:
    [%m] is [(?P<m>1[0-2]|0[1-9]|[1-9])],
    [%d] is [(?P<d>3[0-1]|[1-2]\d|0[1-9]|[1-9]| [1-9])],
    [%Y] is [(?P<Y>\d\d\d\d)]. *)
Definition directive_m : regex :=
  Grp "m" (alt [Cat (Chr "1") (Range "0" "2"); Cat (Chr "0") (Range "1" "9")]
               (Range "1" "9")).

Definition directive_d : regex :=
  Grp "d" (alt [Cat (Chr "3") (Range "0" "1"); Cat (Range "1" "2") digit;
                Cat (Chr "0") (Range "1" "9"); Range "1" "9"]
               (Cat (Chr " ") (Range "1" "9"))).

Definition directive_Y : regex :=
  Grp "Y" (cat [digit; digit; digit] digit).

(** The regex compiled from the format ["%m/%d/%Y"]. *)
Definition format_regex : regex :=
  cat [directive_m; Chr "/"; directive_d; Chr "/"] directive_Y.

Definition is_leap (y : Z) : bool :=
  ((y mod 4 =? 0) && (negb (y mod 100 =? 0) || (y mod 400 =? 0)))%Z.

Definition days_in_month (y m : Z) : Z :=
  if (m =? 2)%Z then (if is_leap y then 29 else 28)
  else if ((m =? 4) || (m =? 6) || (m =? 9) || (m =? 11))%Z then 30
  else 31.

(** The checks of the [date] constructor. *)
Definition valid_date (y m d : Z) : bool :=
  ((1 <=? y) && (y <=? 9999) && (1 <=? m) && (m <=? 12)
   && (1 <=? d) && (d <=? days_in_month y m))%Z.

(** [int(s)], where [s] is a group of [format_regex]: digits, after one
    space at most. *)
Definition int_of_group (s : string) : Z := int_of_digits 0 (lstrip s).

(** [datetime.strptime(s, "%m/%d/%Y")]: the string must match the format
    with nothing left over, and the fields must make a date. *)
Definition strptime (s : string) : res datetime :=
  match re_match format_regex s with
  | Some (EmptyString, g) =>
      match group "Y" g, group "m" g, group "d" g with
      | Some y, Some m, Some d =>
          let y := int_of_group y in
          let m := int_of_group m in
          let d := int_of_group d in
          if valid_date y m d
          then Ok {| year := y; month := m; day := d |}
          else Raise ValueError
      | _, _, _ => Raise ValueError
      end
  | _ => Raise ValueError
  end.

(** [dt.strftime("Silver_Stocks.%y.%m.%d.xls")] *)
Definition strftime (dt : datetime) : string :=
  "Silver_Stocks." +:+ pad2 (year dt mod 100) +:+ "." +:+ pad2 (month dt)
  +:+ "." +:+ pad2 (day dt) +:+ ".xls".

End DateTime.

(** ** The tracker *)

Module Tracker.
Import PyStr PyFloat Re DateTime.

(** *** Configuration *)

Definition URL : string := "https://www.cmegroup.com/delivery_reports/Silver_stocks.xls".
Definition CSV_FILE : string := "comex_silver_master.csv".
Definition XLS_FILENAME : string := "Silver_Stocks.TEMP.xls".
Definition HISTORIC_FOLDER : string := "historic".

Definition COLUMNS : list string :=
  ["Activity Date"; "Registered"; "Regi. Daily Change"; "Reg. Monthly Change";
   "Reg. Monthly Change (In Millions)"; "Eligible"; "Total"; "Daily Change";
   "Month Change"; "Month Change (in Millions)"; "% Registered of Total";
   "Total (In Millions)"; "% of Start"].

(** *** Data *)

(** A spreadsheet read with [header=None]: rows of cells, each cell given
    by its [str()] image (an empty cell reads ["nan"]). *)
Definition Sheet : Type := list (list string).

(** The two percentage columns hold a string on one branch and a bare
    number on the other. *)
Inductive value : Type :=
| VStr (s : string)
| VInt (n : Z)
| VFloat (x : pyfloat).

(** One row of the ledger, a field per entry of [COLUMNS]. The date is
    [None] when the script stored Python's [None]. *)
Record LedgerRow : Type := {
  Activity_Date : option string;
  Registered : pyfloat;
  Regi_Daily_Change : pyfloat;
  Reg_Monthly_Change : pyfloat;
  Reg_Monthly_Change_In_Millions : pyfloat;
  Eligible : pyfloat;
  Total : pyfloat;
  Daily_Change : pyfloat;
  Month_Change : pyfloat;
  Month_Change_in_Millions : pyfloat;
  Pct_Registered_of_Total : value;
  Total_In_Millions : pyfloat;
  Pct_of_Start : value
}.

(** A line of standard output; [ErrorLine e] is [print(f"Error: {e}")]. *)
Inductive out_line : Type :=
| Line (s : string)
| ErrorLine (e : exn).

(** The files the script touches: the ledger [CSV_FILE] (absent, or a
    table of rows under the header line), the download [XLS_FILENAME],
    and the folder [HISTORIC_FOLDER] (absent, or a map from file names to
    spreadsheets); and what was printed so far. *)
Record World : Type := {
  csv_file : option (list LedgerRow);
  temp_xls : option Sheet;
  historic : option (gmap string Sheet);
  stdout : list out_line
}.

(** *** The monad of the script: state and exceptions *)

Definition M (A : Type) : Type := World -> res A * World.

Definition ret {A} (a : A) : M A := fun w => (Ok a, w).

#[global] Instance bind : MBind M :=
  fun A B (k : A -> M B) (c : M A) =>
    fun w =>
      match c w with
      | (Ok a, w') => k a w'
      | (Raise e, w') => (Raise e, w')
      end.

Definition raise {A} (e : exn) : M A := fun w => (Raise e, w).

Definition lift {A} (r : res A) : M A := fun w => (r, w).

Definition gets {A} (f : World -> A) : M A := fun w => (Ok (f w), w).

Definition modify (f : World -> World) : M unit := fun w => (Ok tt, f w).

(** [try: body except Exception as e: handler e] *)
Definition try_except_Exception {A} (body : M A) (handler : exn -> M A) : M A :=
  fun w =>
    match body w with
    | (Raise e, w') => if is_Exception e then handler e w' else (Raise e, w')
    | r => r
    end.

(** [try: body except (IndexError, ValueError): handler] on pure code *)
Definition try_except_Index_Value {A} (body : res A) (handler : res A) : res A :=
  match body with
  | Raise IndexError | Raise ValueError => handler
  | r => r
  end.

(** *** File system and console primitives *)

Definition set_csv (rows : list LedgerRow) (w : World) : World :=
  {| csv_file := Some rows; temp_xls := temp_xls w;
     historic := historic w; stdout := stdout w |}.

Definition set_temp (f : option Sheet) (w : World) : World :=
  {| csv_file := csv_file w; temp_xls := f;
     historic := historic w; stdout := stdout w |}.

Definition set_historic (h : gmap string Sheet) (w : World) : World :=
  {| csv_file := csv_file w; temp_xls := temp_xls w;
     historic := Some h; stdout := stdout w |}.

Definition add_line (l : out_line) (w : World) : World :=
  {| csv_file := csv_file w; temp_xls := temp_xls w;
     historic := historic w; stdout := stdout w ++ [l] |}.

Definition print (s : string) : M unit := modify (add_line (Line s)).

(** [os.path.exists(CSV_FILE)] *)
Definition csv_exists : M bool := gets (fun w => bool_decide (is_Some (csv_file w))).

(** [pd.read_csv(CSV_FILE)] *)
Definition read_csv : M (list LedgerRow) :=
  fun w =>
    match csv_file w with
    | Some rows => (Ok rows, w)
    | None => (Raise FileNotFoundError, w)
    end.

(** [master_df.to_csv(CSV_FILE, index=False)] *)
Definition to_csv (rows : list LedgerRow) : M unit := modify (set_csv rows).

(** [pd.read_excel(XLS_FILENAME, header=None)] *)
Definition read_excel : M Sheet :=
  fun w =>
    match temp_xls w with
    | Some df => (Ok df, w)
    | None => (Raise FileNotFoundError, w)
    end.

(** [os.remove(XLS_FILENAME)] *)
Definition remove_temp : M unit :=
  fun w =>
    match temp_xls w with
    | Some _ => (Ok tt, set_temp None w)
    | None => (Raise FileNotFoundError, w)
    end.

(** [os.path.exists(HISTORIC_FOLDER + "/" + name)] *)
Definition historic_exists (name : string) : M bool :=
  gets (fun w =>
          match historic w with
          | Some h => bool_decide (is_Some (h !! name))
          | None => false
          end).

(** [os.remove(HISTORIC_FOLDER + "/" + name)] *)
Definition remove_historic (name : string) : M unit :=
  fun w =>
    match historic w with
    | Some h =>
        match h !! name with
        | Some _ => (Ok tt, set_historic (delete name h) w)
        | None => (Raise FileNotFoundError, w)
        end
    | None => (Raise FileNotFoundError, w)
    end.

(** [os.rename(XLS_FILENAME, HISTORIC_FOLDER + "/" + name)] *)
Definition rename_temp_to_historic (name : string) : M unit :=
  fun w =>
    match temp_xls w, historic w with
    | Some f, Some h => (Ok tt, set_temp None (set_historic (<[name := f]> h) w))
    | _, _ => (Raise FileNotFoundError, w)
    end.

(** *** [download_file]

    [remote] is what the GET of [url] yields: the spreadsheet, or nothing
    when the request or [raise_for_status] fails. *)
Definition download_file (remote : option Sheet) (url filename : string) : M unit :=
  print ("Attempting to download from " +:+ url +:+ "...");;
  response ← lift (match remote with
                   | Some content => Ok content
                   | None => Raise RequestException
                   end);
  modify (set_temp (Some response));;
  print ("Successfully downloaded: " +:+ filename).

(** *** [parse_xls] *)

(** The row-by-row date search: the loop leaves at the first row that
    holds the marker and a match of the pattern. *)
Fixpoint find_date (rows : Sheet) : option string :=
  match rows with
  | [] => None
  | row :: rest =>
      let row_str := join " " row in
      if contains "Activity Date:" row_str then
        match re_search date_pattern row_str with
        | Some (_, g) => group "1" g
        | None => find_date rest
        end
      else find_date rest
  end.

(** [df.astype(str).apply(lambda x: x.str.contains(label, case=False,
    na=False)).any(axis=1)], for one row *)
Definition mask (label : string) (row : list string) : bool :=
  existsb (contains_nocase label) row.

(** [df.iloc[0, 7]] *)
Definition iloc_0_7 (df : Sheet) : res string :=
  match df with
  | [] => Raise IndexError
  | row :: _ =>
      match nth_error row 7 with
      | Some val => Ok val
      | None => Raise IndexError
      end
  end.

Definition get_clean_val (df : Sheet) (label : string) : res pyfloat :=
  try_except_Index_Value
    (val ← iloc_0_7 (List.filter (mask label) df);
     clean_num ← float_of_string (strip (remove_char "$" (remove_char "," val)));
     Ok (round_nd clean_num 3))
    (Ok (Fin 0)).

Definition parse_sheet (df : Sheet)
    : res (option string * pyfloat * pyfloat * pyfloat) :=
  let data_date := find_date df in
  registered ← get_clean_val df "TOTAL REGISTERED";
  eligible ← get_clean_val df "TOTAL ELIGIBLE";
  total ← get_clean_val df "COMBINED TOTAL";
  Ok (data_date, registered, eligible, total).

Definition parse_xls (filename : string)
    : M (option string * pyfloat * pyfloat * pyfloat) :=
  df ← read_excel;
  lift (parse_sheet df).

(** *** [update_master_csv] *)

Definition million : pyfloat := of_Z 1000000.

(** The dictionary [new_row]; its entries are evaluated in order. *)
Definition new_row (data_date : option string)
    (registered eligible total initial_reg initial_total last_reg last_total : pyfloat)
    : res LedgerRow :=
  reg_month_millions ← div (sub registered initial_reg) million;
  month_millions ← div (sub total initial_total) million;
  pct_registered ←
    (if ne_zero total
     then (ratio ← div registered total;
           Ok (VStr (str_float (round_nd (mul ratio (of_Z 100)) 2) +:+ "%")))
     else Ok (VInt 0));
  total_millions ← div total million;
  pct_start ←
    (if ne_zero initial_total
     then (ratio ← div total initial_total;
           n ← round_int (mul ratio (of_Z 100));
           Ok (VStr (str_int n +:+ "%")))
     else Ok (VFloat (Fin 1)));
  Ok {| Activity_Date := data_date;
        Registered := round_nd registered 3;
        Regi_Daily_Change := round_nd (sub registered last_reg) 3;
        Reg_Monthly_Change := round_nd (sub registered initial_reg) 3;
        Reg_Monthly_Change_In_Millions := round_nd reg_month_millions 3;
        Eligible := round_nd eligible 3;
        Total := round_nd total 3;
        Daily_Change := round_nd (sub total last_total) 3;
        Month_Change := round_nd (sub total initial_total) 3;
        Month_Change_in_Millions := round_nd month_millions 3;
        Pct_Registered_of_Total := pct_registered;
        Total_In_Millions := round_nd total_millions 0;
        Pct_of_Start := pct_start |}.

(** [master_df.iloc[0]] and [master_df.iloc[-1]] *)
Definition iloc_first (master_df : list LedgerRow) : res LedgerRow :=
  match head master_df with
  | Some r => Ok r
  | None => Raise IndexError
  end.

Definition iloc_last (master_df : list LedgerRow) : res LedgerRow :=
  match last master_df with
  | Some r => Ok r
  | None => Raise IndexError
  end.

(** [datetime.strptime(data_date, "%m/%d/%Y")]; [None] is not a string. *)
Definition strptime_arg (data_date : option string) : res datetime :=
  match data_date with
  | Some s => strptime s
  | None => Raise TypeError
  end.

Definition update_master_csv (data_date : option string)
    (registered eligible total : pyfloat) : M string :=
  exists_ ← csv_exists;
  '(initial_reg, initial_total, last_reg, last_total, master_df) ←
    (if negb exists_
     then ret (registered, total, registered, total, [])
     else
       master_df ← read_csv;
       first ← lift (iloc_first master_df);
       let initial_reg := Registered first in
       let initial_total := Total first in
       last_ ← lift (iloc_last master_df);
       let last_reg := Registered last_ in
       let last_total := Total last_ in
       ret (initial_reg, initial_total, last_reg, last_total, master_df));
  row ← lift (new_row data_date registered eligible total
                initial_reg initial_total last_reg last_total);
  (* Append and save *)
  to_csv (master_df ++ [row]);;
  dt_obj ← lift (strptime_arg data_date);
  ret (strftime dt_obj).

(** *** The script *)

(** [str(master_df.iloc[-1]['Activity Date'])]: a date stored as [None]
    is an empty CSV field, which reads back as nan. *)
Definition str_date_cell (d : option string) : string :=
  match d with
  | Some s => s
  | None => "nan"
  end.

(** [d_date.strip()]; [None] has no such attribute. *)
Definition strip_arg (d_date : option string) : res string :=
  match d_date with
  | Some s => Ok (strip s)
  | None => Raise AttributeError
  end.

(** [f"{d_date}"] *)
Definition str_opt (d_date : option string) : string :=
  match d_date with
  | Some s => s
  | None => "None"
  end.

(** The check that the last line of the master file is today's. *)
Definition duplicate_guard (d_date : option string) : M unit :=
  exists_ ← csv_exists;
  if exists_ : bool then
    master_df ← read_csv;
    match last master_df with
    | Some last_ =>
        let last_entry_date := strip (str_date_cell (Activity_Date last_)) in
        d ← lift (strip_arg d_date);
        if String.eqb last_entry_date d then
          print ("Data for " +:+ str_opt d_date +:+ " already exists in master. Exiting.");;
          remove_temp;;
          raise SystemExit
        else ret tt
    | None => ret tt
    end
  else ret tt.

Definition main_body (remote : option Sheet) : M unit :=
  print "Welcome to the COMEX Inventory Tracker";;
  print "... downloading latest file ... ";;
  download_file remote URL XLS_FILENAME;;
  print "... parsing file ...";;
  '(d_date, reg, elig, tot) ← parse_xls XLS_FILENAME;
  duplicate_guard d_date;;
  print "... updating CSV ... ";;
  final_name ← update_master_csv d_date reg elig tot;
  print "... moving xls file ...";;
  exists_ ← historic_exists final_name;
  (if exists_ : bool then remove_historic final_name else ret tt);;
  rename_temp_to_historic final_name;;
  print "Done!".

Definition main (remote : option Sheet) : M unit :=
  try_except_Exception (main_body remote)
    (fun e => modify (add_line (ErrorLine e))).

End Tracker.

(** ** Vocabulary of the statements and sample data *)

Module Spec.
Import PyStr PyFloat Re DateTime Tracker.

(** The rows of the ledger; none when the file is absent. *)
Definition ledger (w : World) : list LedgerRow := default [] (csv_file w).

(** The run from [w] to [w'] appended [row] to the ledger. *)
Definition appended (w w' : World) (row : LedgerRow) : Prop :=
  csv_file w' = Some (ledger w ++ [row])%list.

(** The formulas of the ledger updater as the specification words them
    (section 4.3), to compare the stored row with. *)

(** daily change = new - previous, rounded to 3 places *)
Definition daily_change (new previous : pyfloat) : pyfloat :=
  round_nd (sub new previous) 3.

(** month change = new - anchor, rounded to 3 places *)
Definition month_change (new anchor : pyfloat) : pyfloat :=
  round_nd (sub new anchor) 3.

(** month change in millions = (new - anchor) / 1,000,000, rounded to 3
    places *)
Definition month_change_millions (new anchor : pyfloat) : res pyfloat :=
  x ← div (sub new anchor) (of_Z 1000000);
  Ok (round_nd x 3).

(** percent registered-of-total = registered / total * 100, rounded to 2
    places, as a string with a percent sign; the number 0 if total is 0 *)
Definition pct_registered_of_total (registered total : pyfloat) : res value :=
  if ne_zero total
  then ratio ← div registered total;
       Ok (VStr (str_float (round_nd (mul ratio (of_Z 100)) 2) +:+ "%"))
  else Ok (VInt 0).

(** percent of period start = total / anchor-total * 100, rounded to the
    nearest integer, as a string with a percent sign; the number 1.000 if
    anchor-total is 0 *)
Definition pct_of_start (total anchor_total : pyfloat) : res value :=
  if ne_zero anchor_total
  then ratio ← div total anchor_total;
       n ← round_int (mul ratio (of_Z 100));
       Ok (VStr (str_int n +:+ "%"))
  else Ok (VFloat (Fin 1)).

(** The files after the download and the progress lines printed up to the
    parsing step. *)
Definition downloaded (sheet : Sheet) (w : World) : World :=
  add_line (Line "... parsing file ...")
    (add_line (Line ("Successfully downloaded: " +:+ XLS_FILENAME))
       (set_temp (Some sheet)
          (add_line (Line ("Attempting to download from " +:+ URL +:+ "..."))
             (add_line (Line "... downloading latest file ... ")
                (add_line (Line "Welcome to the COMEX Inventory Tracker") w))))).

(** A ledger the updater can load: the file is absent, or it has rows and
    the total of the first one is finite. *)
Definition loadable (w : World) : Prop :=
  match csv_file w with
  | None => True
  | Some rows =>
      exists first, head rows = Some first /\ is_finite (Total first) = true
  end.

(** The duplicate-date guard lets a snapshot dated [d] through: the last
    row of the ledger, if any, has another date. *)
Definition fresh_date (w : World) (d : string) : Prop :=
  forall last_, last (ledger w) = Some last_ ->
    strip (str_date_cell (Activity_Date last_)) <> strip d.

(** A report date written M/D/YYYY, month and day with or without a
    leading zero. *)
Definition field_str (pad : bool) (n : Z) : string :=
  if pad then pad2 n else str_int n.

Definition date_string (pad_m pad_d : bool) (m d y : Z) : string :=
  field_str pad_m m +:+ "/" +:+ field_str pad_d d +:+ "/" +:+ pad4 y.

(** Silver_Stocks.YY.MM.DD.xls *)
Definition archive_name (y m d : Z) : string :=
  "Silver_Stocks." +:+ pad2 (y mod 100) +:+ "." +:+ pad2 m +:+ "." +:+ pad2 d
  +:+ ".xls".

(** *** Sample data *)

Definition blank : list string := ["nan"; "nan"; "nan"; "nan"; "nan"; "nan"; "nan"].

Definition sheet_sample : Sheet :=
  [ "COMEX SILVER STOCKS" :: blank;
    "Report Date: 1/16/2024" :: blank;
    "Activity Date: 1/15/2024" :: blank;
    ["TOTAL REGISTERED"; "0"; "0"; "0"; "0"; "0"; "0"; "150,000,000"];
    ["Total Eligible"; "0"; "0"; "0"; "0"; "0"; "0"; "$100000000.0004"];
    ["COMBINED TOTAL"; "0"; "0"; "0"; "0"; "0"; "0"; "250000000"] ].

(** The same report without the eligible line and with a dash for the
    registered total. *)
Definition sheet_gaps : Sheet :=
  [ "Activity Date: 1/15/2024" :: blank;
    ["TOTAL REGISTERED"; "0"; "0"; "0"; "0"; "0"; "0"; "$ -"];
    ["COMBINED TOTAL"; "0"; "0"; "0"; "0"; "0"; "0"; "250000000"] ].

(** A report whose marker line carries no date. *)
Definition sheet_no_date : Sheet :=
  [ "Activity Date: pending" :: blank;
    ["TOTAL REGISTERED"; "0"; "0"; "0"; "0"; "0"; "0"; "150000000"];
    ["TOTAL ELIGIBLE"; "0"; "0"; "0"; "0"; "0"; "0"; "100000000"];
    ["COMBINED TOTAL"; "0"; "0"; "0"; "0"; "0"; "0"; "250000000"] ].

(** A report dated with a month that does not exist. *)
Definition sheet_bad_date : Sheet :=
  [ "Activity Date: 13/45/2024" :: blank;
    ["TOTAL REGISTERED"; "0"; "0"; "0"; "0"; "0"; "0"; "150000000"];
    ["TOTAL ELIGIBLE"; "0"; "0"; "0"; "0"; "0"; "0"; "100000000"];
    ["COMBINED TOTAL"; "0"; "0"; "0"; "0"; "0"; "0"; "250000000"] ].

(** A report for the next day. *)
Definition sheet_next : Sheet :=
  [ "Activity Date: 1/16/2024" :: blank;
    ["TOTAL REGISTERED"; "0"; "0"; "0"; "0"; "0"; "0"; "149,000,000.5"];
    ["TOTAL ELIGIBLE"; "0"; "0"; "0"; "0"; "0"; "0"; "100,500,000"];
    ["COMBINED TOTAL"; "0"; "0"; "0"; "0"; "0"; "0"; "249,500,000.5"] ].

Definition row_sample : LedgerRow :=
  {| Activity_Date := Some "1/15/2024";
     Registered := of_Z 150000000;
     Regi_Daily_Change := of_Z 0;
     Reg_Monthly_Change := of_Z 0;
     Reg_Monthly_Change_In_Millions := of_Z 0;
     Eligible := of_Z 100000000;
     Total := of_Z 250000000;
     Daily_Change := of_Z 0;
     Month_Change := of_Z 0;
     Month_Change_in_Millions := of_Z 0;
     Pct_Registered_of_Total := VStr "60.0%";
     Total_In_Millions := of_Z 250;
     Pct_of_Start := VStr "100%" |}.

(** No ledger yet, an empty archive folder. *)
Definition world_fresh : World :=
  {| csv_file := None; temp_xls := None; historic := Some ∅; stdout := [] |}.

(** The ledger file with its header line only. *)
Definition world_header_only : World :=
  {| csv_file := Some []; temp_xls := None; historic := Some ∅; stdout := [] |}.

(** After the run of 1/15/2024. *)
Definition world_day1 : World :=
  {| csv_file := Some [row_sample]; temp_xls := None;
     historic := Some {[ "Silver_Stocks.24.01.15.xls" := sheet_sample ]};
     stdout := [] |}.

(** The ledger was deleted and the archive of 1/15/2024 kept. *)
Definition world_archive_only : World :=
  {| csv_file := None; temp_xls := None;
     historic := Some {[ "Silver_Stocks.24.01.15.xls" := sheet_gaps ]};
     stdout := [] |}.

(** A row as the script writes it: a date, when there is one, of the shape
    of the date pattern; every number rounded, to 3 places or, for the total
    in millions, to 0; each percentage either a string that ends with a
    percent sign or the bare number of its zero branch. *)
Definition rounded (n : nat) (x : pyfloat) : Prop := round_nd x n = x.

Definition well_formed_row (r : LedgerRow) : Prop :=
  (forall d, Activity_Date r = Some d -> date_shaped d) /\
  rounded 3 (Registered r) /\
  rounded 3 (Regi_Daily_Change r) /\
  rounded 3 (Reg_Monthly_Change r) /\
  rounded 3 (Reg_Monthly_Change_In_Millions r) /\
  rounded 3 (Eligible r) /\
  rounded 3 (Total r) /\
  rounded 3 (Daily_Change r) /\
  rounded 3 (Month_Change r) /\
  rounded 3 (Month_Change_in_Millions r) /\
  rounded 0 (Total_In_Millions r) /\
  ((exists x, Pct_Registered_of_Total r = VStr (str_float x +:+ "%") /\ rounded 2 x) \/
   Pct_Registered_of_Total r = VInt 0) /\
  ((exists n, Pct_of_Start r = VStr (str_int n +:+ "%")) \/
   Pct_of_Start r = VFloat (Fin 1)).

(** The row of 1/16/2024 after the one of 1/15/2024. *)
Definition row_day2 : LedgerRow :=
  {| Activity_Date := Some "1/16/2024";
     Registered := Fin (298000001 # 2);
     Regi_Daily_Change := Fin (-1999999 # 2);
     Reg_Monthly_Change := Fin (-1999999 # 2);
     Reg_Monthly_Change_In_Millions := of_Z (-1);
     Eligible := of_Z 100500000;
     Total := Fin (499000001 # 2);
     Daily_Change := Fin (-999999 # 2);
     Month_Change := Fin (-999999 # 2);
     Month_Change_in_Millions := Fin (-1 # 2);
     Pct_Registered_of_Total := VStr "59.72%";
     Total_In_Millions := of_Z 250;
     Pct_of_Start := VStr "100%" |}.

(** After the runs of 1/15/2024 and 1/16/2024. *)
Definition world_day2 : World :=
  {| csv_file := Some [row_sample; row_day2]; temp_xls := None;
     historic := Some {[ "Silver_Stocks.24.01.15.xls" := sheet_sample ]};
     stdout := [] |}.

(** No ledger and no archive folder. *)
Definition world_no_folder : World :=
  {| csv_file := None; temp_xls := None; historic := None; stdout := [] |}.

End Spec.
(** * Properties *)

Import PyStr PyFloat Re DateTime Tracker Spec.

(** ** The extractor never raises *)

Lemma float_of_string_raises s e :
  float_of_string s = Raise e -> e = ValueError.
Proof.
  unfold float_of_string.
  destruct (split_sign (strip s)) as [neg body].
  destruct (_ || _); [discriminate |].
  destruct (String.eqb _ _); [discriminate |].
  destruct (floatnumber body); [discriminate |].
  congruence.
Qed.

Lemma iloc_0_7_raises df e : iloc_0_7 df = Raise e -> e = IndexError.
Proof.
  unfold iloc_0_7. destruct df as [| row rest]; [congruence |].
  destruct (nth_error row 7); congruence.
Qed.

Lemma get_clean_val_returns df label : exists x, get_clean_val df label = Ok x.
Proof.
  unfold get_clean_val, mbind, res_bind.
  destruct (iloc_0_7 _) as [val | e] eqn:Hi.
  - destruct (float_of_string _) as [x | e] eqn:Hf; simpl; [eauto |].
    apply float_of_string_raises in Hf as ->. simpl. eauto.
  - apply iloc_0_7_raises in Hi as ->. simpl. eauto.
Qed.

Lemma parse_sheet_returns df :
  exists reg elig tot, parse_sheet df = Ok (find_date df, reg, elig, tot).
Proof.
  unfold parse_sheet, mbind, res_bind.
  destruct (get_clean_val_returns df "TOTAL REGISTERED") as [reg ->].
  destruct (get_clean_val_returns df "TOTAL ELIGIBLE") as [elig ->].
  destruct (get_clean_val_returns df "COMBINED TOTAL") as [tot ->].
  eauto.
Qed.


Lemma filter_mask_first label (pre post : Sheet) row :
  (forall r, In r pre -> mask label r = false) ->
  mask label row = true ->
  exists rest, List.filter (mask label) (pre ++ row :: post)%list = row :: rest.
Proof.
  intros Hpre Hrow. induction pre as [| r pre IH]; simpl.
  - rewrite Hrow. eauto.
  - rewrite (Hpre r) by (left; reflexivity).
    apply IH. intros r' Hr'. apply Hpre. right. exact Hr'.
Qed.


(** ** Running the script step by step *)

Ltac run_M :=
  unfold mbind, bind, csv_exists, read_csv, to_csv, gets, modify, lift, ret,
    raise, print; simpl.

Ltac run_with H := run_M; repeat (rewrite H; simpl).

Lemma main_body_run sheet w d reg elig tot :
  parse_sheet sheet = Ok (d, reg, elig, tot) ->
  main_body (Some sheet) w =
  (duplicate_guard d;;
   print "... updating CSV ... ";;
   final_name ← update_master_csv d reg elig tot;
   print "... moving xls file ...";;
   exists_ ← historic_exists final_name;
   (if exists_ : bool then remove_historic final_name else ret tt);;
   rename_temp_to_historic final_name;;
   print "Done!") (downloaded sheet w).
Proof.
  intros H. unfold main_body.
  unfold mbind at 1 2 3 4 5. unfold bind at 1 2 3 4 5. simpl.
  unfold parse_xls, read_excel, mbind, bind, lift. simpl. rewrite H. reflexivity.
Qed.

Lemma guard_absent d w :
  csv_file w = None -> duplicate_guard d w = (Ok tt, w).
Proof. intros H. unfold duplicate_guard. run_with H. reflexivity. Qed.

Lemma guard_header_only d w :
  csv_file w = Some [] -> duplicate_guard d w = (Ok tt, w).
Proof. intros H. unfold duplicate_guard. run_with H. reflexivity. Qed.

Lemma guard_no_date rows last_ w :
  csv_file w = Some rows -> last rows = Some last_ ->
  duplicate_guard None w = (Raise AttributeError, w).
Proof.
  intros H Hl. unfold duplicate_guard. run_with H. rewrite Hl.
  reflexivity.
Qed.

Lemma guard_hit rows last_ d f w :
  csv_file w = Some rows -> last rows = Some last_ -> temp_xls w = Some f ->
  strip (str_date_cell (Activity_Date last_)) = strip d ->
  duplicate_guard (Some d) w =
  (Raise SystemExit,
   set_temp None
     (add_line (Line ("Data for " +:+ d +:+ " already exists in master. Exiting.")) w)).
Proof.
  intros H Hl Hf Heq. unfold duplicate_guard. run_with H.
  rewrite Hl. simpl. rewrite Heq, String.eqb_refl. simpl.
  unfold remove_temp. simpl. rewrite Hf. reflexivity.
Qed.

Lemma guard_pass rows last_ d w :
  csv_file w = Some rows -> last rows = Some last_ ->
  strip (str_date_cell (Activity_Date last_)) <> strip d ->
  duplicate_guard (Some d) w = (Ok tt, w).
Proof.
  intros H Hl Hne. unfold duplicate_guard. run_with H.
  rewrite Hl. simpl. apply String.eqb_neq in Hne. rewrite Hne. reflexivity.
Qed.

Lemma update_header_only d reg elig tot w :
  csv_file w = Some [] ->
  update_master_csv d reg elig tot w = (Raise IndexError, w).
Proof. intros H. unfold update_master_csv. run_with H. reflexivity. Qed.

Lemma update_absent d reg elig tot w :
  csv_file w = None ->
  update_master_csv d reg elig tot w =
  match new_row d reg elig tot reg tot reg tot with
  | Ok row => (dt ← strptime_arg d; Ok (strftime dt), set_csv [row] w)
  | Raise e => (Raise e, w)
  end.
Proof.
  intros H. unfold update_master_csv. run_with H.
  destruct (new_row _ _ _ _ _ _ _ _); [| reflexivity].
  destruct (strptime_arg d); reflexivity.
Qed.

Lemma update_rows d reg elig tot w rows first last_ :
  csv_file w = Some rows -> head rows = Some first -> last rows = Some last_ ->
  update_master_csv d reg elig tot w =
  match new_row d reg elig tot (Registered first) (Total first)
          (Registered last_) (Total last_) with
  | Ok row => (dt ← strptime_arg d; Ok (strftime dt), set_csv (rows ++ [row]) w)
  | Raise e => (Raise e, w)
  end.
Proof.
  intros H Hh Hl. unfold update_master_csv. run_with H.
  unfold iloc_first, iloc_last. rewrite Hh, Hl. simpl.
  destruct (new_row _ _ _ _ _ _ _ _); [| reflexivity].
  destruct (strptime_arg d); reflexivity.
Qed.

(** ** Arithmetic of the row *)




Lemma div_million x : exists y, div x million = Ok y.
Proof. destruct x; simpl; eauto. Qed.

Lemma div_nonzero x y : ne_zero y = true -> exists z, div x y = Ok z.
Proof.
  destruct y as [q | | b]; simpl.
  - intros H. destruct (qzero q); [discriminate |]. destruct x; eauto.
  - eauto.
  - destruct x; eauto.
Qed.

Lemma div_finite x q :
  qzero q = false -> is_finite x = true ->
  exists p, div x (Fin q) = Ok (Fin p).
Proof.
  intros H Hx. destruct x; try discriminate. simpl. rewrite H. eauto.
Qed.

(** The row is computed whenever the two totals are finite. *)
Lemma new_row_finite d reg elig tot ir it lr lt :
  is_finite tot = true -> is_finite it = true ->
  exists row, new_row d reg elig tot ir it lr lt = Ok row.
Proof.
  intros Ht Hi. unfold new_row, mbind, res_bind.
  destruct (div_million (sub reg ir)) as [a ->].
  destruct (div_million (sub tot it)) as [b ->]. cbv beta iota.
  assert (Hp : exists v, pct_registered_of_total reg tot = Ok v).
  { unfold pct_registered_of_total, mbind, res_bind.
    destruct (ne_zero tot) eqn:Hz; [| eauto].
    destruct (div_nonzero reg tot Hz) as [z ->]. eauto. }
  destruct Hp as [v Hp].
  unfold pct_registered_of_total, mbind, res_bind in Hp. rewrite Hp.
  destruct (div_million tot) as [c ->]. cbv beta iota.
  assert (Hs : exists v, pct_of_start tot it = Ok v).
  { unfold pct_of_start, mbind, res_bind.
    destruct it as [q | |]; try discriminate. simpl.
    destruct (qzero q) eqn:Hq; simpl; [eauto |].
    destruct tot as [p | |]; try discriminate. simpl. eauto. }
  destruct Hs as [v' Hs].
  unfold pct_of_start, mbind, res_bind in Hs. rewrite Hs. eauto.
Qed.

(** What a computed row holds, field by field. *)
Lemma new_row_fields d reg elig tot ir it lr lt row :
  new_row d reg elig tot ir it lr lt = Ok row ->
  Activity_Date row = d /\
  Registered row = round_nd reg 3 /\
  Eligible row = round_nd elig 3 /\
  Total row = round_nd tot 3 /\
  Regi_Daily_Change row = daily_change reg lr /\
  Daily_Change row = daily_change tot lt /\
  Reg_Monthly_Change row = month_change reg ir /\
  Month_Change row = month_change tot it /\
  month_change_millions reg ir = Ok (Reg_Monthly_Change_In_Millions row) /\
  month_change_millions tot it = Ok (Month_Change_in_Millions row) /\
  pct_registered_of_total reg tot = Ok (Pct_Registered_of_Total row) /\
  pct_of_start tot it = Ok (Pct_of_Start row).
Proof.
  unfold new_row, month_change_millions, pct_registered_of_total, pct_of_start,
    daily_change, month_change, million, mbind, res_bind.
  intros H.
  destruct (div (sub reg ir) (of_Z 1000000)) as [a |]; [| discriminate].
  destruct (div (sub tot it) (of_Z 1000000)) as [b |]; [| discriminate].
  destruct (if ne_zero tot then _ else _) as [v |]; [| discriminate].
  destruct (div tot (of_Z 1000000)) as [c |]; [| discriminate].
  destruct (if ne_zero it then _ else _) as [v' |]; [| discriminate].
  injection H as <-. cbn [Activity_Date Registered Eligible Total
    Regi_Daily_Change Daily_Change Reg_Monthly_Change Month_Change
    Reg_Monthly_Change_In_Millions Month_Change_in_Millions
    Pct_Registered_of_Total Pct_of_Start].
  repeat split; reflexivity.
Qed.

(** ** The ledger updater *)

Lemma last_is_Some {A} (x : A) (l : list A) : exists y, last (x :: l) = Some y.
Proof.
  revert x. induction l as [| a l IH]; intros x; [eexists; reflexivity |].
  destruct (IH a) as [y Hy]. exists y. exact Hy.
Qed.

Lemma not_grown {A} (l : list A) (x : A) : l <> (l ++ [x])%list.
Proof.
  intros H. apply (f_equal (@length A)) in H.
  rewrite length_app in H. simpl in H. lia.
Qed.

(** A row lands in the ledger only as the value of [new_row] on the
    comparators the updater loaded. *)
Lemma update_appended d reg elig tot w row :
  appended w (update_master_csv d reg elig tot w).2 row ->
  match csv_file w with
  | None => new_row d reg elig tot reg tot reg tot = Ok row
  | Some rows =>
      exists first last_,
        head rows = Some first /\ last rows = Some last_ /\
        new_row d reg elig tot (Registered first) (Total first)
          (Registered last_) (Total last_) = Ok row
  end.
Proof.
  unfold appended, ledger. intros H.
  destruct (csv_file w) as [rows |] eqn:Hw.
  - destruct rows as [| r rows].
    + rewrite (update_header_only _ _ _ _ _ Hw) in H. simpl in H.
      rewrite Hw in H. discriminate.
    + destruct (last_is_Some r rows) as [l Hl].
      rewrite (update_rows _ _ _ _ _ _ r l Hw eq_refl Hl) in H.
      exists r, l. split; [reflexivity |]. split; [exact Hl |].
      destruct (new_row _ _ _ _ _ _ _ _) as [row0 | e]; simpl in H.
      * injection H as H. apply app_inj_tail in H as [_ ->]. reflexivity.
      * rewrite Hw in H. injection H as H. destruct (not_grown _ _ H).
  - rewrite (update_absent _ _ _ _ _ Hw) in H.
    destruct (new_row _ _ _ _ _ _ _ _) as [row0 | e]; simpl in H.
    + injection H as ->. reflexivity.
    + rewrite Hw in H. discriminate.
Qed.








(** The scenario of the specification: 1/15/2024 on an empty ledger. *)
Example first_run_row :
  csv_file (update_master_csv (Some "1/15/2024") (of_Z 150000000)
              (of_Z 100000000) (of_Z 250000000) world_fresh).2
  = Some [row_sample].
Proof. reflexivity. Qed.

(** The scenario of the specification: total = 0 stores the number 0. *)
Example zero_total_row :
  exists row,
    csv_file (update_master_csv (Some "1/15/2024") (of_Z 0) (of_Z 0) (of_Z 0)
                world_fresh).2 = Some [row] /\
    Pct_Registered_of_Total row = VInt 0 /\
    Pct_of_Start row = VFloat (Fin 1).
Proof. eexists. split; [reflexivity |]. split; reflexivity. Qed.

(** The next day, through the whole script: the sheet of 1/16/2024 is
    parsed, its row joins the one of 1/15/2024 and the download is archived
    next to the earlier one. *)
Example second_day_run :
  let r := main (Some sheet_next) world_day1 in
  parse_sheet sheet_next
  = Ok (Some "1/16/2024", Fin (298000001 # 2), Fin 100500000, Fin (499000001 # 2)) /\
  r.1 = Ok tt /\
  map Activity_Date <$> csv_file r.2 = Some [Some "1/15/2024"; Some "1/16/2024"] /\
  (h ← historic r.2; h !! "Silver_Stocks.24.01.16.xls") = Some sheet_next /\
  (h ← historic r.2; h !! "Silver_Stocks.24.01.15.xls") = Some sheet_sample /\
  temp_xls r.2 = None /\
  last (stdout r.2) = Some (Line "Done!").
Proof. vm_compute. repeat split. Qed.

(** The next day against the row of 1/15/2024. *)
Example second_run_row :
  exists row,
    csv_file (update_master_csv (Some "1/16/2024") (Fin (298000001 # 2))
                (of_Z 100500000) (Fin (499000001 # 2)) world_day1).2
      = Some [row_sample; row] /\
    Regi_Daily_Change row = Fin (-1999999 # 2) /\
    Reg_Monthly_Change_In_Millions row = Fin (-1 # 1) /\
    Daily_Change row = Fin (-999999 # 2) /\
    Month_Change_in_Millions row = Fin (-1 # 2) /\
    Pct_Registered_of_Total row = VStr "59.72%" /\
    Total_In_Millions row = Fin 250 /\
    Pct_of_Start row = VStr "100%".
Proof. eexists. split; [reflexivity |]. repeat split; reflexivity. Qed.


(** ** The extractor's fallback *)



(** The scenario of the specification: no TOTAL ELIGIBLE line. *)
Example eligible_absent :
  parse_sheet sheet_gaps = Ok (Some "1/15/2024", Fin 0, Fin 0, Fin 250000000).
Proof. reflexivity. Qed.

(** An empty cell reads nan, which [float] accepts: no fallback there. *)
Example empty_cell_is_nan :
  get_clean_val [["TOTAL REGISTERED"; "0"; "0"; "0"; "0"; "0"; "0"; "nan"]]
    "TOTAL REGISTERED" = Ok NaN.
Proof. reflexivity. Qed.

(** ** The whole run *)

Lemma run_handler (body : M unit) w e w' :
  body w = (Raise e, w') -> is_Exception e = true ->
  try_except_Exception body (fun e => modify (add_line (ErrorLine e))) w
  = (Ok tt, add_line (ErrorLine e) w').
Proof.
  intros H He. unfold try_except_Exception. rewrite H, He. reflexivity.
Qed.

(** C10. The empty-ledger rule is keyed on the existence of the file, not
    on the number of rows: when the ledger file exists and holds no data
    row, [update_master_csv] raises on reading the first row, nothing is
    appended, and the run ends in the top-level handler. *)
Theorem C10_header_only_ledger_raises :
  forall (w : World) (d : option string) (registered eligible total : pyfloat),
    csv_file w = Some [] ->
    update_master_csv d registered eligible total w = (Raise IndexError, w) /\
    (forall sheet,
       parse_sheet sheet = Ok (d, registered, eligible, total) ->
       exists w',
         main (Some sheet) w = (Ok tt, w') /\
         csv_file w' = Some [] /\
         stdout w' = (stdout (downloaded sheet w)
                      ++ [Line "... updating CSV ... "; ErrorLine IndexError])%list).
Proof.
  intros w d reg elig tot Hw. split; [apply update_header_only; exact Hw |].
  intros sheet Hp. eexists. split.
  - unfold main. apply (run_handler _ _ IndexError); [| reflexivity].
    rewrite (main_body_run _ _ _ _ _ _ Hp).
    unfold mbind at 1. unfold bind at 1.
    rewrite guard_header_only by exact Hw.
    cbv beta iota.
    unfold mbind at 1. unfold bind at 1. unfold print at 1. unfold modify at 1.
    cbv beta iota.
    unfold mbind at 1. unfold bind at 1.
    rewrite update_header_only by exact Hw. reflexivity.
  - simpl. rewrite Hw. split; [reflexivity |].
    rewrite <- !app_assoc. reflexivity.
Qed.

Lemma C10_header_only_ledger_raises_witness :
  update_master_csv (Some "1/15/2024") (Fin 150000000) (Fin 100000000)
    (Fin 250000000) world_header_only
  = (Raise IndexError, world_header_only).
Proof.
  apply (C10_header_only_ledger_raises world_header_only (Some "1/15/2024")
           (Fin 150000000) (Fin 100000000) (Fin 250000000)).
  reflexivity.
Defined.

(** C2. When the trimmed Activity Date of the last row of an existing
    ledger equals the trimmed date of the new snapshot, the run skips the
    append: the ledger keeps its rows, the already-exists message is
    printed, and the temporary download is removed before the exit. *)
Theorem C2_same_date_skips_append :
  forall (sheet : Sheet) (w : World) (rows : list LedgerRow) (last_ : LedgerRow)
         (d : string) (registered eligible total : pyfloat),
    csv_file w = Some rows ->
    last rows = Some last_ ->
    parse_sheet sheet = Ok (Some d, registered, eligible, total) ->
    strip (str_date_cell (Activity_Date last_)) = strip d ->
    exists w',
      main (Some sheet) w = (Raise SystemExit, w') /\
      csv_file w' = Some rows /\
      temp_xls w' = None /\
      historic w' = historic w /\
      stdout w' = (stdout (downloaded sheet w)
                   ++ [Line ("Data for " +:+ d +:+ " already exists in master. Exiting.")])%list.
Proof.
  intros sheet w rows last_ d reg elig tot Hw Hl Hp Heq. eexists. split.
  - unfold main, try_except_Exception.
    rewrite (main_body_run _ _ _ _ _ _ Hp).
    unfold mbind at 1. unfold bind at 1.
    rewrite (guard_hit rows last_ d sheet); [reflexivity | exact Hw | exact Hl | reflexivity | exact Heq].
  - simpl. rewrite Hw. repeat split.
Qed.

Lemma C2_same_date_skips_append_witness :
  exists w',
    main (Some sheet_sample) world_day1 = (Raise SystemExit, w') /\
    csv_file w' = Some [row_sample] /\
    temp_xls w' = None /\
    historic w' = historic world_day1 /\
    stdout w' = (stdout (downloaded sheet_sample world_day1)
                 ++ [Line "Data for 1/15/2024 already exists in master. Exiting."])%list.
Proof.
  apply (C2_same_date_skips_append sheet_sample world_day1 [row_sample] row_sample
           "1/15/2024" (Fin 150000000) (Fin 100000000) (Fin 250000000));
    reflexivity.
Defined.

(** ** The regex matcher *)

Lemma append_cons x (a b : string) : String x a +:+ b = String x (a +:+ b).
Proof. reflexivity. Qed.

Lemma append_nil (b : string) : "" +:+ b = b.
Proof. reflexivity. Qed.

Lemma append_assoc (a b c : string) : (a +:+ b) +:+ c = a +:+ (b +:+ c).
Proof.
  induction a as [| x a IH]; [reflexivity |].
  rewrite !append_cons. f_equal. exact IH.
Qed.

Lemma length_append (a b : string) :
  String.length (a +:+ b) = (String.length a + String.length b)%nat.
Proof.
  induction a as [| x a IH]; [reflexivity |].
  rewrite append_cons. simpl. f_equal. exact IH.
Qed.

Lemma substring_prefix (a b : string) :
  String.substring 0 (String.length a) (a +:+ b) = a.
Proof.
  induction a as [| x a IH].
  - destruct b; reflexivity.
  - rewrite append_cons. simpl. f_equal. exact IH.
Qed.

(** What the matcher consumed is the text in front of what it left. *)
Lemma consumed_append (a b : string) : consumed (a +:+ b) b = a.
Proof.
  unfold consumed. rewrite length_append.
  replace (String.length a + String.length b - String.length b)%nat
    with (String.length a) by lia.
  apply substring_prefix.
Qed.

Lemma consumed_eq (s a b : string) : s = a +:+ b -> consumed s b = a.
Proof. intros ->. apply consumed_append. Qed.

(** Soundness of the matcher on a regex without groups: when it succeeds,
    the continuation was run on a suffix of the input, with the groups it
    was given, and the text in front of that suffix is in the language. *)
Lemma rep_sound {R} (r : regex)
    (step : string -> groups -> @cont R -> option R) :
  (forall s g k x, step s g k = Some x ->
     exists s1 s2, s = s1 +:+ s2 /\ matches r s1 /\ k s2 g = Some x) ->
  forall hi lo s g k x,
    rep step lo hi s g k = Some x ->
    exists s1 s2, s = s1 +:+ s2 /\ matches (Rep r lo hi) s1 /\ k s2 g = Some x.
Proof.
  intros Hstep. induction hi as [| hi IH]; intros lo s g k x H; simpl in H.
  - destruct (lo =? 0)%nat eqn:Hlo; [| discriminate].
    apply Nat.eqb_eq in Hlo as ->.
    exists "", s. repeat split; [constructor | exact H].
  - destruct (step s g _) as [y |] eqn:Hs.
    + injection H as ->.
      apply Hstep in Hs as (s1 & s2 & -> & Hm & Hk).
      apply IH in Hk as (t1 & t2 & -> & Hm' & Hk).
      exists (s1 +:+ t1), t2. rewrite append_assoc.
      repeat split; [constructor; assumption | exact Hk].
    + destruct (lo =? 0)%nat eqn:Hlo; [| discriminate].
      apply Nat.eqb_eq in Hlo as ->.
      exists "", s. repeat split; [constructor | exact H].
Qed.

Lemma rmatch_sound {R} (r : regex) :
  no_groups r = true ->
  forall s g (k : @cont R) x,
    rmatch r s g k = Some x ->
    exists s1 s2, s = s1 +:+ s2 /\ matches r s1 /\ k s2 g = Some x.
Proof.
  induction r as [c | lo hi | r1 IH1 r2 IH2 | r1 IH1 r2 IH2 | r IH lo hi | n r IH];
    intros Hng s g k x H; simpl in H, Hng.
  - destruct s as [| a t]; [discriminate |].
    destruct (Ascii.eqb a c) eqn:Ha; [| discriminate].
    apply Ascii.eqb_eq in Ha as ->.
    exists (String c ""), t. repeat split; [constructor | exact H].
  - destruct s as [| a t]; [discriminate |].
    destruct (in_range lo hi a) eqn:Ha; [| discriminate].
    exists (String a ""), t. repeat split; [constructor; exact Ha | exact H].
  - apply andb_prop in Hng as [H1 H2].
    apply (IH1 H1) in H as (s1 & s2 & -> & Hm1 & H).
    apply (IH2 H2) in H as (t1 & t2 & -> & Hm2 & H).
    exists (s1 +:+ t1), t2. rewrite append_assoc.
    repeat split; [constructor; assumption | exact H].
  - apply andb_prop in Hng as [H1 H2].
    destruct (rmatch r1 s g k) as [y |] eqn:Hr1.
    + injection H as ->.
      apply (IH1 H1) in Hr1 as (s1 & s2 & -> & Hm & Hk).
      exists s1, s2. repeat split; [apply matches_Alt_l; exact Hm | exact Hk].
    + apply (IH2 H2) in H as (s1 & s2 & -> & Hm & Hk).
      exists s1, s2. repeat split; [apply matches_Alt_r; exact Hm | exact Hk].
  - apply (rep_sound r) in H; [exact H |].
    intros s' g' k' x' H'. apply (IH Hng). exact H'.
  - discriminate.
Qed.

Lemma rmatch_Grp {R} name r s g (k : @cont R) :
  rmatch (Grp name r) s g k
  = rmatch r s g (fun s' g' => k s' ((name, consumed s s') :: g')).
Proof. reflexivity. Qed.

(** A match of the date pattern has the shape of a date, and group 1 is the
    whole match. *)
Lemma re_match_date s rest g :
  re_match date_pattern s = Some (rest, g) ->
  exists d, s = d +:+ rest /\ matches date_shape d /\ g = [("1", d)].
Proof.
  unfold re_match, date_pattern. rewrite rmatch_Grp. intros H.
  apply (rmatch_sound date_shape eq_refl) in H as (s1 & s2 & -> & Hm & H).
  injection H as <- <-. exists s1. rewrite consumed_append. auto.
Qed.

Lemma re_search_eq r s :
  re_search r s =
  match re_match r s with
  | Some (s', g) => Some (consumed s s', g)
  | None =>
      match s with
      | String _ t => re_search r t
      | EmptyString => None
      end
  end.
Proof. destruct s; reflexivity. Qed.

Lemma re_search_date s m g :
  re_search date_pattern s = Some (m, g) ->
  matches date_shape m /\ group "1" g = Some m.
Proof.
  induction s as [| c s IH]; rewrite re_search_eq;
    (destruct (re_match date_pattern _) as [[rest g'] |] eqn:Hm;
     [ intros H; injection H as <- <-;
       apply re_match_date in Hm as (d & Hd & Hs & ->);
       rewrite (consumed_eq _ _ _ Hd); split; [exact Hs | reflexivity] | ]).
  - discriminate.
  - exact IH.
Qed.

(** The language of the date pattern, spelled out. *)
Lemma matches_Cat_inv r1 r2 s :
  matches (Cat r1 r2) s ->
  exists s1 s2, s = s1 +:+ s2 /\ matches r1 s1 /\ matches r2 s2.
Proof. inversion 1; subst; eauto. Qed.

Lemma matches_Rep_inv r lo hi s :
  matches (Rep r lo hi) s ->
  (lo = 0%nat /\ s = "") \/
  (exists hi' s1 s2,
     hi = S hi' /\ s = s1 +:+ s2 /\ matches r s1 /\
     matches (Rep r (Nat.pred lo) hi') s2).
Proof. inversion 1; subst; eauto 10. Qed.

Lemma matches_digit s :
  matches digit s -> exists c, s = String c "" /\ is_digit c = true.
Proof. inversion 1; subst; eauto. Qed.

Lemma matches_slash s : matches (Chr "/") s -> s = "/".
Proof. inversion 1; subst; reflexivity. Qed.

(** At most [n] digits. *)
Lemma matches_digits_upto n s :
  matches (Rep digit 0 n) s ->
  all_digits s = true /\ (String.length s <= n)%nat.
Proof.
  revert s. induction n as [| n IH]; intros s H;
    apply matches_Rep_inv in H as [[_ ->] | (hi & s1 & s2 & Hhi & -> & H1 & H2)];
    try (split; [reflexivity | simpl; lia]).
  - discriminate.
  - injection Hhi as <-.
    apply matches_digit in H1 as (c & -> & Hc).
    apply IH in H2 as [Hd Hl].
    rewrite append_cons, append_nil. simpl. rewrite Hc, Hd.
    split; [reflexivity | lia].
Qed.

(** A first digit, then at most [n] more. *)
Lemma matches_digits_from lo n s :
  matches (Rep digit (S lo) (S n)) s ->
  exists c t,
    s = String c t /\ is_digit c = true /\ matches (Rep digit lo n) t.
Proof.
  intros H.
  apply matches_Rep_inv in H as [[Hlo _] | (hi & s1 & s2 & Hhi & -> & H1 & H2)];
    [discriminate |].
  injection Hhi as <-.
  apply matches_digit in H1 as (c & -> & Hc).
  exists c, s2. rewrite append_cons, append_nil. auto.
Qed.

Lemma matches_digits_1_2 s :
  matches (Rep digit 1 2) s -> one_or_two_digits s = true.
Proof.
  intros H. apply matches_digits_from in H as (c & t & -> & Hc & H).
  apply matches_digits_upto in H as [Hd Hl].
  unfold one_or_two_digits. simpl. rewrite Hc, Hd. simpl.
  destruct t as [| a [| b t]]; simpl in *; [reflexivity | reflexivity | lia].
Qed.

Lemma matches_digits_4_4 s :
  matches (Rep digit 4 4) s -> four_digits s = true.
Proof.
  intros H.
  apply matches_digits_from in H as (c1 & t1 & -> & Hc1 & H).
  apply matches_digits_from in H as (c2 & t2 & -> & Hc2 & H).
  apply matches_digits_from in H as (c3 & t3 & -> & Hc3 & H).
  apply matches_digits_from in H as (c4 & t4 & -> & Hc4 & H).
  apply matches_digits_upto in H as [_ Hl].
  destruct t4; [| simpl in Hl; lia].
  unfold four_digits. simpl. rewrite Hc1, Hc2, Hc3, Hc4. reflexivity.
Qed.

Lemma matches_date_shape s : matches date_shape s -> date_shaped s.
Proof.
  unfold date_shape. simpl cat. intros H.
  apply matches_Cat_inv in H as (m & s1 & -> & Hm & H).
  apply matches_Cat_inv in H as (sl1 & s2 & -> & Hsl1 & H).
  apply matches_Cat_inv in H as (d & s3 & -> & Hd & H).
  apply matches_Cat_inv in H as (sl2 & y & -> & Hsl2 & Hy).
  apply matches_slash in Hsl1 as ->. apply matches_slash in Hsl2 as ->.
  exists m, d, y. split; [reflexivity |].
  auto using matches_digits_1_2, matches_digits_4_4.
Qed.

(** [re.search] returns the leftmost match: no match starts before it. *)
Lemma re_search_leftmost r s m g :
  re_search r s = Some (m, g) ->
  exists i rest,
    re_match r (drop_chars i s) = Some (rest, g) /\
    m = consumed (drop_chars i s) rest /\
    forall j, (j < i)%nat -> re_match r (drop_chars j s) = None.
Proof.
  induction s as [| c s IH]; rewrite re_search_eq;
    destruct (re_match r _) as [[rest g'] |] eqn:Hm; intros H.
  - injection H as <- <-. exists 0%nat, rest. repeat split; [exact Hm | lia].
  - discriminate.
  - injection H as <- <-. exists 0%nat, rest. repeat split; [exact Hm | lia].
  - apply IH in H as (i & rest & H1 & H2 & H3).
    exists (S i), rest. repeat split; [exact H1 | exact H2 |].
    intros [| j] Hj; [exact Hm | apply H3; lia].
Qed.

(** ** Date discovery *)

Lemma find_date_skip (pre rest : Sheet) :
  (forall r, In r pre ->
     contains "Activity Date:" (join " " r) = false \/
     re_search date_pattern (join " " r) = None) ->
  find_date (pre ++ rest)%list = find_date rest.
Proof.
  induction pre as [| r pre IH]; intros H; [reflexivity |].
  simpl. destruct (H r (or_introl eq_refl)) as [-> | Hs].
  - apply IH. intros r' Hr'. apply H. right. exact Hr'.
  - rewrite Hs. destruct (contains _ _); apply IH; intros r' Hr'; apply H; right; exact Hr'.
Qed.

Lemma find_date_none (df : Sheet) :
  (forall r, In r df ->
     contains "Activity Date:" (join " " r) = false \/
     re_search date_pattern (join " " r) = None) ->
  find_date df = None.
Proof.
  intros H. rewrite <- (app_nil_r df). rewrite find_date_skip by exact H.
  reflexivity.
Qed.

(** C7. Date discovery scans the rows top to bottom; the row that holds
    the marker Activity Date: is searched, as the concatenation of its
    cells, with the date pattern (one or two digits, a slash, one or two
    digits, a slash, four digits); the first match found is the date that
    is returned, and the scan stops there: the rows below do not count.
    Rows above that hold no marker, or a marker and no match, are passed
    over. *)
Theorem C7_first_hit_is_the_date :
  forall (pre post : Sheet) (row : list string) (d : string) (g : groups),
    (forall r, In r pre ->
       contains "Activity Date:" (join " " r) = false \/
       re_search date_pattern (join " " r) = None) ->
    contains "Activity Date:" (join " " row) = true ->
    re_search date_pattern (join " " row) = Some (d, g) ->
    find_date (pre ++ row :: post)%list = Some d /\
    date_shaped d /\
    exists i rest,
      drop_chars i (join " " row) = d +:+ rest /\
      forall j, (j < i)%nat ->
        re_match date_pattern (drop_chars j (join " " row)) = None.
Proof.
  intros pre post row d g Hpre Hmark Hsearch.
  destruct (re_search_date _ _ _ Hsearch) as [Hshape Hgroup].
  split; [| split].
  - rewrite find_date_skip by exact Hpre. simpl.
    rewrite Hmark, Hsearch. exact Hgroup.
  - apply matches_date_shape. exact Hshape.
  - apply re_search_leftmost in Hsearch as (i & rest & Hm & Hd & Hleft).
    exists i, rest. split; [| exact Hleft].
    apply re_match_date in Hm as (d' & Hs & _ & _).
    rewrite Hd. rewrite (consumed_eq _ _ _ Hs). exact Hs.
Qed.

Lemma C7_first_hit_is_the_date_witness :
  find_date ([ "COMEX SILVER STOCKS" :: blank; "Activity Date: pending" :: blank ]
             ++ ["Activity Date: 1/15/2024"; "printed 1/16/2024"]
             :: [ "Activity Date: 1/17/2024" :: blank ])%list
  = Some "1/15/2024" /\
  date_shaped "1/15/2024" /\
  exists i rest,
    drop_chars i (join " " ["Activity Date: 1/15/2024"; "printed 1/16/2024"])
    = "1/15/2024" +:+ rest /\
    forall j, (j < i)%nat ->
      re_match date_pattern
        (drop_chars j (join " " ["Activity Date: 1/15/2024"; "printed 1/16/2024"]))
      = None.
Proof.
  apply (C7_first_hit_is_the_date
           [ "COMEX SILVER STOCKS" :: blank; "Activity Date: pending" :: blank ]
           [ "Activity Date: 1/17/2024" :: blank ]
           ["Activity Date: 1/15/2024"; "printed 1/16/2024"]
           "1/15/2024" [("1", "1/15/2024")]).
  - intros r [<- | [<- | []]]; [left | right]; reflexivity.
  - reflexivity.
  - reflexivity.
Defined.

(** A marker line without a date does not stop the scan. *)
Example marker_without_date_is_passed_over :
  find_date [ "Activity Date: pending" :: blank; "Activity Date: 1/15/2024" :: blank ]
  = Some "1/15/2024".
Proof. reflexivity. Qed.

(** ** The run after the guard *)

Lemma main_body_update_raises sheet w d reg elig tot e w2 :
  parse_sheet sheet = Ok (d, reg, elig, tot) ->
  duplicate_guard d (downloaded sheet w) = (Ok tt, downloaded sheet w) ->
  update_master_csv d reg elig tot
    (add_line (Line "... updating CSV ... ") (downloaded sheet w)) = (Raise e, w2) ->
  main_body (Some sheet) w = (Raise e, w2).
Proof.
  intros Hp Hg Hu. rewrite (main_body_run _ _ _ _ _ _ Hp).
  unfold mbind at 1. unfold bind at 1. rewrite Hg. cbv beta iota.
  unfold mbind at 1. unfold bind at 1. unfold print at 1. unfold modify at 1.
  cbv beta iota.
  unfold mbind at 1. unfold bind at 1. rewrite Hu. reflexivity.
Qed.

Lemma main_body_update_returns sheet w d reg elig tot name w2 f h :
  parse_sheet sheet = Ok (d, reg, elig, tot) ->
  duplicate_guard d (downloaded sheet w) = (Ok tt, downloaded sheet w) ->
  update_master_csv d reg elig tot
    (add_line (Line "... updating CSV ... ") (downloaded sheet w)) = (Ok name, w2) ->
  temp_xls w2 = Some f ->
  historic w2 = Some h ->
  main_body (Some sheet) w =
  (Ok tt,
   add_line (Line "Done!")
     (set_temp None
        (set_historic (<[name := f]> h)
           (add_line (Line "... moving xls file ...") w2)))).
Proof.
  intros Hp Hg Hu Hf Hh. rewrite (main_body_run _ _ _ _ _ _ Hp).
  unfold mbind at 1. unfold bind at 1. rewrite Hg. cbv beta iota.
  unfold mbind at 1. unfold bind at 1. unfold print at 1. unfold modify at 1.
  cbv beta iota.
  unfold mbind at 1. unfold bind at 1. rewrite Hu. cbv beta iota.
  unfold mbind, bind, print, modify, historic_exists, gets, remove_historic,
    rename_temp_to_historic, ret.
  simpl. rewrite Hh.
  destruct (h !! name) as [old |] eqn:Hold; simpl.
  - rewrite Hh, Hold. simpl. rewrite Hf. unfold set_temp, set_historic. simpl.
    rewrite insert_delete_eq. reflexivity.
  - rewrite Hf, Hh. reflexivity.
Qed.

Lemma guard_fresh sheet w d :
  fresh_date w d ->
  duplicate_guard (Some d) (downloaded sheet w) = (Ok tt, downloaded sheet w).
Proof.
  unfold fresh_date, ledger. intros H.
  destruct (csv_file w) as [rows |] eqn:Hw.
  - destruct rows as [| r rows]; [apply guard_header_only; exact Hw |].
    destruct (last_is_Some r rows) as [l Hl].
    apply (guard_pass (r :: rows) l); [exact Hw | exact Hl | apply H; exact Hl].
  - apply guard_absent. exact Hw.
Qed.

(** The row is the same for every world that holds the same ledger. *)
Lemma update_appends_row d reg elig tot w :
  loadable w -> is_finite tot = true ->
  exists row,
    Activity_Date row = d /\
    forall w2, csv_file w2 = csv_file w ->
      update_master_csv d reg elig tot w2 =
        (dt ← strptime_arg d; Ok (strftime dt), set_csv (ledger w ++ [row]) w2).
Proof.
  unfold loadable, ledger. intros Hl Ht.
  destruct (csv_file w) as [rows |] eqn:Hw.
  - destruct Hl as [first [Hh Hf]].
    destruct rows as [| r rows]; [discriminate |].
    destruct (last_is_Some r rows) as [l Hlast].
    destruct (new_row_finite d reg elig tot (Registered first) (Total first)
                (Registered l) (Total l) Ht Hf) as [row Hrow].
    exists row. split; [apply new_row_fields in Hrow; tauto |].
    intros w2 Hw2.
    rewrite (update_rows _ _ _ _ _ _ first l Hw2 Hh Hlast). rewrite Hrow.
    reflexivity.
  - assert (Hr : exists row, new_row d reg elig tot reg tot reg tot = Ok row)
      by (apply new_row_finite; assumption).
    destruct Hr as [row Hrow].
    exists row. split; [apply new_row_fields in Hrow; tauto |].
    intros w2 Hw2. rewrite (update_absent _ _ _ _ _ Hw2). rewrite Hrow.
    reflexivity.
Qed.

(** ** An absent date *)

Lemma div_raises x y e : div x y = Raise e -> e = ZeroDivisionError.
Proof.
  unfold div. destruct y as [q | | b].
  - destruct (qzero q); [intros [= <-]; reflexivity | destruct x; discriminate].
  - discriminate.
  - destruct x; discriminate.
Qed.

Lemma round_int_raises x e :
  round_int x = Raise e -> e = ValueError \/ e = OverflowError.
Proof. destruct x; simpl; intros H; [discriminate | |]; injection H as <-; auto. Qed.

Lemma new_row_raises d reg elig tot ir it lr lt e :
  new_row d reg elig tot ir it lr lt = Raise e -> is_Exception e = true.
Proof.
  unfold new_row, mbind, res_bind. intros H.
  destruct (div (sub reg ir) million) eqn:H1;
    [| apply div_raises in H1 as ->; injection H as <-; reflexivity].
  destruct (div (sub tot it) million) eqn:H2;
    [| apply div_raises in H2 as ->; injection H as <-; reflexivity].
  destruct (if ne_zero tot then _ else _) eqn:H3.
  2:{ destruct (ne_zero tot); [| discriminate].
      destruct (div reg tot) eqn:H3'; [discriminate |].
      apply div_raises in H3' as ->. injection H3 as <-. injection H as <-.
      reflexivity. }
  destruct (div tot million) eqn:H4;
    [| apply div_raises in H4 as ->; injection H as <-; reflexivity].
  destruct (if ne_zero it then _ else _) eqn:H5; [discriminate |].
  destruct (ne_zero it); [| discriminate].
  destruct (div tot it) eqn:H5';
    [| apply div_raises in H5' as ->; injection H5 as <-; injection H as <-;
       reflexivity].
  destruct (round_int _) eqn:H6; [discriminate |].
  apply round_int_raises in H6 as [-> | ->]; injection H5 as <-; injection H as <-;
    reflexivity.
Qed.

(** C6. When no row of the sheet yields a date match the extractor
    returns an absent date, and the run that follows faults: the exception
    comes from stripping the absent date for the duplicate-date comparison
    when the ledger has rows, and from parsing it for the archive file name
    when the ledger file is absent and the row was written. No branch
    handles the absent date, and only the top-level handler catches the
    exception, prints the error line and ends the run. *)
Theorem C6_absent_date_faults :
  forall (sheet : Sheet) (w : World),
    (forall r, In r sheet ->
       contains "Activity Date:" (join " " r) = false \/
       re_search date_pattern (join " " r) = None) ->
    exists reg elig tot e w',
      parse_sheet sheet = Ok (None, reg, elig, tot) /\
      main_body (Some sheet) w = (Raise e, w') /\
      is_Exception e = true /\
      main (Some sheet) w = (Ok tt, add_line (ErrorLine e) w') /\
      (forall rows last_,
         csv_file w = Some rows -> last rows = Some last_ ->
         e = AttributeError /\ w' = downloaded sheet w) /\
      (forall row,
         csv_file w = None ->
         new_row None reg elig tot reg tot reg tot = Ok row ->
         e = TypeError /\ csv_file w' = Some [row]).
Proof.
  intros sheet w Hrows.
  destruct (parse_sheet_returns sheet) as (reg & elig & tot & Hp).
  rewrite (find_date_none _ Hrows) in Hp. exists reg, elig, tot.
  assert (Hmain : forall e w', main_body (Some sheet) w = (Raise e, w') ->
            is_Exception e = true ->
            main (Some sheet) w = (Ok tt, add_line (ErrorLine e) w')).
  { intros e w' Hb He. unfold main. apply (run_handler _ _ e); assumption. }
  destruct (csv_file w) as [rows |] eqn:Hw.
  - destruct (last rows) as [l |] eqn:Hl.
    + exists AttributeError, (downloaded sheet w).
      assert (Hb : main_body (Some sheet) w = (Raise AttributeError, downloaded sheet w)).
      { rewrite (main_body_run _ _ _ _ _ _ Hp).
        unfold mbind at 1. unfold bind at 1.
        rewrite (guard_no_date rows l); [reflexivity | exact Hw | exact Hl]. }
      split; [exact Hp |]. split; [exact Hb |]. split; [reflexivity |].
      split; [apply Hmain; [exact Hb | reflexivity] |].
      split; [intros; split; reflexivity | discriminate].
    + assert (rows = []) as ->.
      { destruct rows as [| r rows]; [reflexivity |].
        destruct (last_is_Some r rows) as [y Hy]. congruence. }
      exists IndexError. eexists.
      assert (Hb : main_body (Some sheet) w
                   = (Raise IndexError,
                      add_line (Line "... updating CSV ... ") (downloaded sheet w))).
      { apply (main_body_update_raises _ _ _ _ _ _ _ _ Hp).
        - apply guard_header_only. exact Hw.
        - apply update_header_only. exact Hw. }
      split; [exact Hp |]. split; [exact Hb |]. split; [reflexivity |].
      split; [apply Hmain; [exact Hb | reflexivity] |].
      split; [intros rows l [= <-]; discriminate | discriminate].
  - assert (Hg : duplicate_guard None (downloaded sheet w)
                 = (Ok tt, downloaded sheet w)) by (apply guard_absent; exact Hw).
    pose proof (update_absent None reg elig tot
                  (add_line (Line "... updating CSV ... ") (downloaded sheet w)) Hw)
      as Hu.
    destruct (new_row None reg elig tot reg tot reg tot) as [row | e] eqn:Hrow.
    + exists TypeError. eexists.
      pose proof (main_body_update_raises _ _ _ _ _ _ _ _ Hp Hg Hu) as Hb.
      split; [exact Hp |]. split; [exact Hb |]. split; [reflexivity |].
      split; [apply Hmain; [exact Hb | reflexivity] |].
      split; [discriminate |].
      intros row' _ [= <-]. split; reflexivity.
    + exists e. eexists.
      pose proof (main_body_update_raises _ _ _ _ _ _ _ _ Hp Hg Hu) as Hb.
      pose proof (new_row_raises _ _ _ _ _ _ _ _ _ Hrow) as He.
      split; [exact Hp |]. split; [exact Hb |]. split; [exact He |].
      split; [apply Hmain; [exact Hb | exact He] |].
      split; discriminate.
Qed.

Lemma C6_absent_date_faults_witness :
  exists reg elig tot e w',
    parse_sheet sheet_no_date = Ok (None, reg, elig, tot) /\
    main_body (Some sheet_no_date) world_day1 = (Raise e, w') /\
    is_Exception e = true /\
    main (Some sheet_no_date) world_day1 = (Ok tt, add_line (ErrorLine e) w') /\
    (forall rows last_,
       csv_file world_day1 = Some rows -> last rows = Some last_ ->
       e = AttributeError /\ w' = downloaded sheet_no_date world_day1) /\
    (forall row,
       csv_file world_day1 = None ->
       new_row None reg elig tot reg tot reg tot = Ok row ->
       e = TypeError /\ csv_file w' = Some [row]).
Proof.
  apply (C6_absent_date_faults sheet_no_date world_day1).
  intros r [<- | [<- | [<- | [<- | []]]]]; (right; reflexivity) || (left; reflexivity).
Defined.

(** The first run on a sheet without a date: the row is written with no
    date before [strptime] faults. *)
Example absent_date_first_run :
  let r := main (Some sheet_no_date) world_fresh in
  r.1 = Ok tt /\
  map Activity_Date <$> csv_file r.2 = Some [None] /\
  temp_xls r.2 = Some sheet_no_date /\
  last (stdout r.2) = Some (ErrorLine TypeError).
Proof. vm_compute. repeat split. Qed.

(** ** A date that does not parse *)

(** C9. The updater saves the ledger with the new row before it parses
    the report date for the archive file name. So for a date string that
    the duplicate-date guard lets through and [strptime] rejects,
    [update_master_csv] raises from the date parse with the ledger file
    already rewritten: the row stays in the ledger, nothing rolls it back,
    and the run ends in the top-level handler with the download still in
    place. *)
Theorem C9_ledger_is_written_before_the_date_parse :
  forall (w : World) (d : string) (registered eligible total : pyfloat),
    loadable w ->
    is_finite total = true ->
    strptime d = Raise ValueError ->
    exists row,
      Activity_Date row = Some d /\
      update_master_csv (Some d) registered eligible total w
      = (Raise ValueError, set_csv (ledger w ++ [row]) w) /\
      forall sheet,
        parse_sheet sheet = Ok (Some d, registered, eligible, total) ->
        fresh_date w d ->
        exists w',
          main (Some sheet) w = (Ok tt, w') /\
          csv_file w' = Some (ledger w ++ [row])%list /\
          temp_xls w' = Some sheet /\
          historic w' = historic w /\
          stdout w' = (stdout (downloaded sheet w)
                       ++ [Line "... updating CSV ... "; ErrorLine ValueError])%list.
Proof.
  intros w d reg elig tot Hl Ht Hd.
  destruct (update_appends_row (Some d) reg elig tot w Hl Ht) as (row & Hdate & Hrow).
  exists row. split; [exact Hdate |].
  assert (Hraise : forall w2, csv_file w2 = csv_file w ->
            update_master_csv (Some d) reg elig tot w2
            = (Raise ValueError, set_csv (ledger w ++ [row]) w2)).
  { intros w2 Hw2. rewrite (Hrow w2 Hw2). simpl strptime_arg. rewrite Hd.
    reflexivity. }
  split; [apply Hraise; reflexivity |].
  intros sheet Hp Hfresh. eexists. split.
  - unfold main. apply (run_handler _ _ ValueError); [| reflexivity].
    apply (main_body_update_raises _ _ _ _ _ _ _ _ Hp).
    + apply guard_fresh. exact Hfresh.
    + apply Hraise. reflexivity.
  - simpl. repeat split. rewrite <- !app_assoc. reflexivity.
Qed.

Lemma C9_ledger_is_written_before_the_date_parse_witness :
  exists row,
    Activity_Date row = Some "13/45/2024" /\
    update_master_csv (Some "13/45/2024") (Fin 150000000) (Fin 100000000)
      (Fin 250000000) world_day1
    = (Raise ValueError, set_csv (ledger world_day1 ++ [row]) world_day1) /\
    forall sheet,
      parse_sheet sheet
      = Ok (Some "13/45/2024", Fin 150000000, Fin 100000000, Fin 250000000) ->
      fresh_date world_day1 "13/45/2024" ->
      exists w',
        main (Some sheet) world_day1 = (Ok tt, w') /\
        csv_file w' = Some (ledger world_day1 ++ [row])%list /\
        temp_xls w' = Some sheet /\
        historic w' = historic world_day1 /\
        stdout w' = (stdout (downloaded sheet world_day1)
                     ++ [Line "... updating CSV ... "; ErrorLine ValueError])%list.
Proof.
  apply (C9_ledger_is_written_before_the_date_parse world_day1 "13/45/2024"
           (Fin 150000000) (Fin 100000000) (Fin 250000000)).
  - exists row_sample. split; reflexivity.
  - reflexivity.
  - reflexivity.
Defined.

(** The whole run on a report dated 13/45/2024: the pattern accepts the
    date, the guard lets it through, the row is stored, [strptime] faults. *)
Example bad_date_run :
  let r := main (Some sheet_bad_date) world_day1 in
  r.1 = Ok tt /\
  map Activity_Date <$> csv_file r.2 = Some [Some "1/15/2024"; Some "13/45/2024"] /\
  temp_xls r.2 = Some sheet_bad_date /\
  last (stdout r.2) = Some (ErrorLine ValueError).
Proof. vm_compute. repeat split. Qed.

(** ** The archive name *)

Lemma rmatch_Cat_eq {R} r1 r2 s g (k : @cont R) :
  rmatch (Cat r1 r2) s g k = rmatch r1 s g (fun s' g' => rmatch r2 s' g' k).
Proof. reflexivity. Qed.

Lemma rmatch_Range_hit {R} lo hi a t g (k : @cont R) :
  in_range lo hi a = true -> rmatch (Range lo hi) (String a t) g k = k t g.
Proof. intros H. simpl. rewrite H. reflexivity. Qed.

Lemma consumed_1 a t : consumed (String a t) t = String a "".
Proof. apply (consumed_append (String a "")). Qed.

Lemma consumed_2 a b t : consumed (String a (String b t)) t = String a (String b "").
Proof. apply (consumed_append (String a (String b ""))). Qed.

Lemma consumed_all s : consumed s "" = s.
Proof.
  rewrite <- (consumed_append s "") at 2.
  f_equal. induction s as [| c s IH]; [reflexivity |].
  rewrite append_cons. f_equal. exact IH.
Qed.

(** Case analysis on an integer known to lie in [1, 31]. *)
Ltac small_Z d :=
  destruct d as [| d | d]; try lia;
  do 5 (try (destruct d as [d | d |]; try lia)).

Local Arguments consumed : simpl never.

Ltac run_directive :=
  match goal with
  | |- context [field_str ?p ?n] =>
      let s := eval vm_compute in (field_str p n) in
      change (field_str p n) with s
  end;
  cbv [String.append]; simpl; rewrite ?consumed_1, ?consumed_2;
  try reflexivity;
  match goal with
  | |- context [rmatch ?r ?s ?g ?k] => destruct (rmatch r s g k); reflexivity
  end.

(** [%m] followed by the slash of the format. *)
Lemma month_then_slash {R} (pad : bool) (m : Z) (r : regex) rest g (k : @cont R) :
  1 <= m <= 12 ->
  rmatch (Cat directive_m (Cat (Chr "/") r)) (field_str pad m +:+ String "/" rest) g k
  = rmatch r rest (("m", field_str pad m) :: g) k.
Proof.
  intros Hm. unfold directive_m. rewrite !rmatch_Cat_eq, rmatch_Grp.
  small_Z m; destruct pad; run_directive.
Qed.

(** [%d] followed by the slash of the format. *)
Lemma day_then_slash {R} (pad : bool) (d : Z) (r : regex) rest g (k : @cont R) :
  1 <= d <= 31 ->
  rmatch (Cat directive_d (Cat (Chr "/") r)) (field_str pad d +:+ String "/" rest) g k
  = rmatch r rest (("d", field_str pad d) :: g) k.
Proof.
  intros Hd. unfold directive_d. rewrite !rmatch_Cat_eq, rmatch_Grp.
  small_Z d; destruct pad; run_directive.
Qed.

Lemma int_of_field pad n : 1 <= n <= 31 -> int_of_group (field_str pad n) = n.
Proof. intros Hn. small_Z n; destruct pad; reflexivity. Qed.

Lemma digit_char_is_digit d :
  0 <= d <= 9 ->
  is_digit (digit_char d) = true /\ is_space (digit_char d) = false /\
  digit_val (digit_char d) = d.
Proof. intros Hd. small_Z d; repeat split; reflexivity. Qed.

(** [%Y] at the end of the string. *)
Lemma year_at_end {R} c1 c2 c3 c4 g (k : @cont R) :
  is_digit c1 = true -> is_digit c2 = true ->
  is_digit c3 = true -> is_digit c4 = true ->
  rmatch directive_Y (String c1 (String c2 (String c3 (String c4 "")))) g k
  = k "" (("Y", String c1 (String c2 (String c3 (String c4 "")))) :: g).
Proof.
  intros H1 H2 H3 H4. unfold directive_Y, cat, digit.
  rewrite rmatch_Grp, rmatch_Cat_eq.
  rewrite (rmatch_Range_hit _ _ c1) by exact H1. cbv beta. rewrite rmatch_Cat_eq.
  rewrite (rmatch_Range_hit _ _ c2) by exact H2. cbv beta. rewrite rmatch_Cat_eq.
  rewrite (rmatch_Range_hit _ _ c3) by exact H3. cbv beta.
  rewrite (rmatch_Range_hit _ _ c4) by exact H4. cbv beta.
  rewrite consumed_all. reflexivity.
Qed.

Lemma pad4_digits y :
  0 <= y <= 9999 ->
  exists c1 c2 c3 c4,
    pad4 y = String c1 (String c2 (String c3 (String c4 ""))) /\
    is_digit c1 = true /\ is_digit c2 = true /\
    is_digit c3 = true /\ is_digit c4 = true /\
    int_of_group (pad4 y) = y.
Proof.
  intros Hy.
  assert (H1 : 0 <= y / 1000 mod 10 <= 9) by (pose proof (Z.mod_pos_bound (y / 1000) 10); lia).
  assert (H2 : 0 <= y / 100 mod 10 <= 9) by (pose proof (Z.mod_pos_bound (y / 100) 10); lia).
  assert (H3 : 0 <= y / 10 mod 10 <= 9) by (pose proof (Z.mod_pos_bound (y / 10) 10); lia).
  assert (H4 : 0 <= y mod 10 <= 9) by (pose proof (Z.mod_pos_bound y 10); lia).
  destruct (digit_char_is_digit _ H1) as (D1 & S1 & V1).
  destruct (digit_char_is_digit _ H2) as (D2 & _ & V2).
  destruct (digit_char_is_digit _ H3) as (D3 & _ & V3).
  destruct (digit_char_is_digit _ H4) as (D4 & _ & V4).
  do 4 eexists. split; [reflexivity |]. repeat split; try assumption.
  unfold int_of_group, pad4, pad2. cbn [lstrip]. rewrite S1.
  cbn [int_of_digits]. rewrite V1, V2, V3, V4.
  clear -Hy. Z.div_mod_to_equations. lia.
Qed.

(** [strptime] reads a well-formed date back. *)
Lemma strptime_date_string pad_m pad_d m d y :
  valid_date y m d = true ->
  strptime (date_string pad_m pad_d m d y)
  = Ok {| year := y; month := m; day := d |}.
Proof.
  intros Hv. pose proof Hv as Hv'. unfold valid_date in Hv'.
  repeat (apply andb_prop in Hv' as [Hv' ?]).
  assert (Hy : 0 <= y <= 9999) by lia.
  assert (Hm : 1 <= m <= 12) by lia.
  assert (Hd : 1 <= d <= 31).
  { split; [lia |]. unfold days_in_month in *.
    destruct (m =? 2)%Z; [destruct (is_leap y); lia |].
    destruct (_ || _); lia. }
  destruct (pad4_digits y Hy) as (c1 & c2 & c3 & c4 & Hpad & D1 & D2 & D3 & D4 & Hint).
  unfold strptime, re_match, format_regex, date_string. simpl cat.
  change ("/" +:+ field_str pad_d d +:+ "/" +:+ pad4 y)
    with (String "/" (field_str pad_d d +:+ String "/" (pad4 y))).
  rewrite month_then_slash by exact Hm.
  rewrite day_then_slash by exact Hd.
  rewrite Hpad. rewrite year_at_end by assumption. rewrite <- Hpad.
  cbn [group String.eqb Ascii.eqb Bool.eqb].
  rewrite Hint, !int_of_field by lia. rewrite Hv. reflexivity.
Qed.

Lemma strftime_archive_name y m d :
  strftime {| year := y; month := m; day := d |} = archive_name y m d.
Proof. reflexivity. Qed.

Example strptime_samples :
  strptime "1/15/2024" = Ok {| year := 2024; month := 1; day := 15 |} /\
  strptime "01/05/2024" = Ok {| year := 2024; month := 1; day := 5 |} /\
  strptime "2/29/2024" = Ok {| year := 2024; month := 2; day := 29 |} /\
  strptime "2/29/2023" = Raise ValueError /\
  strptime "13/45/2024" = Raise ValueError /\
  strptime "1/15/20245" = Raise ValueError /\
  strftime {| year := 2024; month := 1; day := 15 |} = "Silver_Stocks.24.01.15.xls".
Proof. repeat split; reflexivity. Qed.

(** C8. For every report date written M/D/YYYY the ledger updater
    returns the archive file name Silver_Stocks.YY.MM.DD.xls: the year on
    two digits, then the month on two digits, then the day on two digits.
    When the archive folder already holds a file of that name the run
    replaces it with the download and ends normally. *)
Theorem C8_archive_name_and_overwrite :
  forall (y m d : Z) (pad_m pad_d : bool) (w : World)
         (registered eligible total : pyfloat),
    valid_date y m d = true ->
    loadable w ->
    is_finite total = true ->
    let s := date_string pad_m pad_d m d y in
    let name := "Silver_Stocks." +:+ pad2 (y mod 100) +:+ "." +:+ pad2 m
                +:+ "." +:+ pad2 d +:+ ".xls" in
    (update_master_csv (Some s) registered eligible total w).1 = Ok name /\
    forall sheet h old,
      parse_sheet sheet = Ok (Some s, registered, eligible, total) ->
      fresh_date w s ->
      historic w = Some h ->
      h !! name = Some old ->
      exists w' h',
        main (Some sheet) w = (Ok tt, w') /\
        historic w' = Some h' /\
        h' !! name = Some sheet /\
        (forall other, other <> name -> h' !! other = h !! other) /\
        temp_xls w' = None /\
        stdout w' = (stdout (downloaded sheet w)
                     ++ [Line "... updating CSV ... ";
                         Line "... moving xls file ..."; Line "Done!"])%list.
Proof.
  intros y m d pad_m pad_d w reg elig tot Hv Hl Ht s name.
  destruct (update_appends_row (Some s) reg elig tot w Hl Ht) as (row & _ & Hrow).
  assert (Hret : forall w2, csv_file w2 = csv_file w ->
            update_master_csv (Some s) reg elig tot w2
            = (Ok name, set_csv (ledger w ++ [row]) w2)).
  { intros w2 Hw2. rewrite (Hrow w2 Hw2). simpl strptime_arg. subst s.
    rewrite (strptime_date_string _ _ _ _ _ Hv). reflexivity. }
  split; [rewrite Hret by reflexivity; reflexivity |].
  intros sheet h old Hp Hfresh Hh Hold.
  do 2 eexists. split.
  - unfold main, try_except_Exception.
    rewrite (main_body_update_returns sheet w (Some s) reg elig tot name
               (set_csv (ledger w ++ [row])
                  (add_line (Line "... updating CSV ... ") (downloaded sheet w)))
               sheet h Hp);
      [reflexivity | apply guard_fresh; exact Hfresh | apply Hret; reflexivity
      | reflexivity | exact Hh].
  - simpl. split; [reflexivity |]. split; [apply lookup_insert_eq |].
    split; [intros other Hne; apply lookup_insert_ne; congruence |].
    split; [reflexivity |]. rewrite <- !app_assoc. reflexivity.
Qed.

Lemma C8_archive_name_and_overwrite_witness :
  (update_master_csv (Some "1/15/2024") (Fin 150000000) (Fin 100000000)
     (Fin 250000000) world_archive_only).1 = Ok "Silver_Stocks.24.01.15.xls" /\
  forall sheet h old,
    parse_sheet sheet
    = Ok (Some "1/15/2024", Fin 150000000, Fin 100000000, Fin 250000000) ->
    fresh_date world_archive_only "1/15/2024" ->
    historic world_archive_only = Some h ->
    h !! "Silver_Stocks.24.01.15.xls" = Some old ->
    exists w' h',
      main (Some sheet) world_archive_only = (Ok tt, w') /\
      historic w' = Some h' /\
      h' !! "Silver_Stocks.24.01.15.xls" = Some sheet /\
      (forall other, other <> "Silver_Stocks.24.01.15.xls" -> h' !! other = h !! other) /\
      temp_xls w' = None /\
      stdout w' = (stdout (downloaded sheet world_archive_only)
                   ++ [Line "... updating CSV ... ";
                       Line "... moving xls file ..."; Line "Done!"])%list.
Proof.
  apply (C8_archive_name_and_overwrite 2024 1 15 false false world_archive_only
           (Fin 150000000) (Fin 100000000) (Fin 250000000)).
  - reflexivity.
  - exact I.
  - reflexivity.
Defined.

(** The run of 1/15/2024 over the archive that holds that name already. *)
Example overwrite_run :
  let r := main (Some sheet_sample) world_archive_only in
  r.1 = Ok tt /\
  (h ← historic r.2; h !! "Silver_Stocks.24.01.15.xls") = Some sheet_sample /\
  csv_file r.2 = Some [row_sample] /\
  temp_xls r.2 = None /\
  last (stdout r.2) = Some (Line "Done!").
Proof. vm_compute. repeat split. Qed.

(** * Further properties of the script *)

(** ** Download and extraction *)

(** X1. When the request fails the script writes nothing: the ledger, the
    archive folder and whatever temporary file an earlier run left behind
    are as they were, and the run ends in the top-level handler, which
    prints the error line after the three progress lines. *)
Theorem failed_download_changes_nothing :
  forall (w : World),
    main None w
    = (Ok tt,
       add_line (ErrorLine RequestException)
         (add_line (Line ("Attempting to download from " +:+ URL +:+ "..."))
            (add_line (Line "... downloading latest file ... ")
               (add_line (Line "Welcome to the COMEX Inventory Tracker") w)))) /\
    csv_file (main None w).2 = csv_file w /\
    temp_xls (main None w).2 = temp_xls w /\
    historic (main None w).2 = historic w.
Proof. intros w. repeat split. Qed.

(** X2. Download and extraction compose: the extractor reads what the
    download just wrote, even over a stale temporary file, and never raises
    whatever the sheet holds; the ledger and the archive are not touched. *)
Theorem download_then_parse_returns :
  forall (sheet : Sheet) (w : World),
    exists reg elig tot w2,
      (download_file (Some sheet) URL XLS_FILENAME;; parse_xls XLS_FILENAME) w
      = (Ok (find_date sheet, reg, elig, tot), w2) /\
      temp_xls w2 = Some sheet /\
      csv_file w2 = csv_file w /\
      historic w2 = historic w.
Proof.
  intros sheet w.
  destruct (parse_sheet_returns sheet) as (reg & elig & tot & Hp).
  exists reg, elig, tot. eexists. split.
  - unfold download_file, parse_xls, read_excel, mbind, bind, print, modify, lift.
    simpl. rewrite Hp. reflexivity.
  - repeat split.
Qed.

(** X3. Only the first row that holds the label counts: rows above it
    without the label and every row below it leave the extracted value
    unchanged. *)
Theorem get_clean_val_reads_first_matching_row :
  forall (pre post : Sheet) (row : list string) (label : string),
    (forall r, In r pre -> mask label r = false) ->
    mask label row = true ->
    get_clean_val (pre ++ row :: post)%list label = get_clean_val [row] label.
Proof.
  intros pre post row label Hpre Hrow. unfold get_clean_val.
  destruct (filter_mask_first label pre post row Hpre Hrow) as [rest ->].
  simpl List.filter. rewrite Hrow. reflexivity.
Qed.

Lemma get_clean_val_reads_first_matching_row_witness :
  get_clean_val
    ([ "COMEX SILVER STOCKS" :: blank ]
     ++ ["total registered"; "0"; "0"; "0"; "0"; "0"; "0"; "$1,234.5678"]
     :: [ ["TOTAL REGISTERED"; "0"; "0"; "0"; "0"; "0"; "0"; "999"] ])%list
    "TOTAL REGISTERED"
  = get_clean_val [["total registered"; "0"; "0"; "0"; "0"; "0"; "0"; "$1,234.5678"]]
      "TOTAL REGISTERED".
Proof.
  apply (get_clean_val_reads_first_matching_row
           [ "COMEX SILVER STOCKS" :: blank ]
           [ ["TOTAL REGISTERED"; "0"; "0"; "0"; "0"; "0"; "0"; "999"] ]).
  - intros r [<- | []]. reflexivity.
  - reflexivity.
Defined.

Example clean_value_sample :
  get_clean_val [["total registered"; "0"; "0"; "0"; "0"; "0"; "0"; "$1,234.5678"]]
    "TOTAL REGISTERED" = Ok (Fin (154321 # 125)).
Proof. reflexivity. Qed.

(** ** Date discovery, in full *)

Lemma prefix_append (a b : string) : String.prefix a (a +:+ b) = true.
Proof.
  induction a as [| c a IH]; [destruct b; reflexivity |].
  rewrite append_cons. simpl. rewrite IH.
  destruct (ascii_dec c c); [reflexivity | contradiction].
Qed.

Lemma contains_prefix (a s : string) :
  String.prefix a s = true -> contains a s = true.
Proof. intros H. destruct s; cbn [contains]; rewrite H; reflexivity. Qed.

Lemma contains_append (a b : string) : contains a (a +:+ b) = true.
Proof. apply contains_prefix, prefix_append. Qed.

Lemma contains_drop_chars m i s :
  contains m (drop_chars i s) = true -> contains m s = true.
Proof.
  revert s. induction i as [| i IH]; intros s H; [destruct s; exact H |].
  destruct s as [| c s]; [exact H |].
  simpl in H. apply IH in H. simpl. rewrite H. apply orb_true_r.
Qed.

(** What [re.search] returns for the date pattern is in the text. *)
Lemma re_search_date_in_text s m g :
  re_search date_pattern s = Some (m, g) -> contains m s = true.
Proof.
  intros H. apply re_search_leftmost in H as (i & rest & Hm & Hd & _).
  apply re_match_date in Hm as (d & Hs & _ & _).
  rewrite (consumed_eq _ _ _ Hs) in Hd. subst m.
  apply (contains_drop_chars d i). rewrite Hs. apply contains_append.
Qed.

(** X4. The date is absent exactly when no row holds both the marker and
    a match of the date pattern. *)
Theorem find_date_absent_iff :
  forall (df : Sheet),
    find_date df = None <->
    (forall r, In r df ->
       contains "Activity Date:" (join " " r) = false \/
       re_search date_pattern (join " " r) = None).
Proof.
  intros df. split; [| apply find_date_none].
  induction df as [| row df IH]; intros H r Hr; [destruct Hr |].
  simpl in H.
  destruct (contains "Activity Date:" (join " " row)) eqn:Hmark.
  - destruct (re_search date_pattern (join " " row)) as [[m g] |] eqn:Hs.
    + apply re_search_date in Hs as [_ Hg]. congruence.
    + destruct Hr as [<- | Hr]; [right; exact Hs | apply IH; assumption].
  - destruct Hr as [<- | Hr]; [left; exact Hmark | apply IH; assumption].
Qed.

(** X5. Whatever the sheet, a date the extractor returns has the shape
    of the pattern (one or two digits, a slash, one or two digits, a slash,
    four digits) and is read from a row that holds the marker. *)
Theorem find_date_is_sound :
  forall (df : Sheet) (d : string),
    find_date df = Some d ->
    date_shaped d /\
    exists row,
      In row df /\
      contains "Activity Date:" (join " " row) = true /\
      contains d (join " " row) = true.
Proof.
  induction df as [| row df IH]; intros d H; [discriminate |].
  simpl in H.
  destruct (contains "Activity Date:" (join " " row)) eqn:Hmark.
  - destruct (re_search date_pattern (join " " row)) as [[m g] |] eqn:Hs.
    + pose proof (re_search_date _ _ _ Hs) as [Hshape Hg].
      assert (m = d) as -> by congruence.
      split; [apply matches_date_shape; exact Hshape |].
      exists row. split; [left; reflexivity |]. split; [exact Hmark |].
      apply (re_search_date_in_text _ _ _ Hs).
    + destruct (IH d H) as [Hd (r & Hr & H1 & H2)].
      split; [exact Hd |]. exists r. split; [right; exact Hr | auto].
  - destruct (IH d H) as [Hd (r & Hr & H1 & H2)].
    split; [exact Hd |]. exists r. split; [right; exact Hr | auto].
Qed.

Lemma find_date_is_sound_witness :
  date_shaped "1/15/2024" /\
  exists row,
    In row sheet_sample /\
    contains "Activity Date:" (join " " row) = true /\
    contains "1/15/2024" (join " " row) = true.
Proof. apply (find_date_is_sound sheet_sample "1/15/2024"). reflexivity. Defined.

(** ** Rounding *)

Lemma round_half_even_comp (p q : Q) :
  (p == q)%Q -> round_half_even p = round_half_even q.
Proof.
  intros H. unfold round_half_even.
  rewrite (Qfloor_comp _ _ H).
  replace ((p - inject_Z (Qfloor q)) ?= (1 # 2))%Q
    with ((q - inject_Z (Qfloor q)) ?= (1 # 2))%Q; [reflexivity |].
  apply Qcompare_comp; [rewrite H |]; reflexivity.
Qed.

Lemma round_half_even_integer (z : Z) : round_half_even (inject_Z z) = z.
Proof.
  unfold round_half_even. rewrite Qfloor_Z.
  replace ((inject_Z z - inject_Z z) ?= (1 # 2))%Q with Lt; [reflexivity |].
  symmetry. apply (proj1 (Qlt_alt _ _)). lra.
Qed.

Lemma pow10_nonzero n : ~ (pow10 n == 0)%Q.
Proof.
  unfold pow10, Qeq. simpl. pose proof (Z.pow_pos_nonneg 10 (Z.of_nat n)). lia.
Qed.

(** Rounding to [n] places twice is rounding once. *)
Lemma round_nd_idempotent x n : round_nd (round_nd x n) n = round_nd x n.
Proof.
  destruct x as [q | |]; [| reflexivity | reflexivity].
  unfold round_nd. do 2 f_equal. f_equal. f_equal.
  set (z := round_half_even (q * pow10 n)).
  rewrite <- (round_half_even_integer z) at 2.
  apply round_half_even_comp. rewrite Qred_correct.
  field. apply pow10_nonzero.
Qed.

Lemma get_clean_val_rounded df label x :
  get_clean_val df label = Ok x -> round_nd x 3 = x.
Proof.
  unfold get_clean_val, try_except_Index_Value, mbind, res_bind. intros H.
  destruct (iloc_0_7 _) as [val | e].
  - destruct (float_of_string _) as [y | e].
    + injection H as <-. apply round_nd_idempotent.
    + destruct e; try discriminate; injection H as <-; reflexivity.
  - destruct e; try discriminate; injection H as <-; reflexivity.
Qed.

(** X6. The ledger stores what the extractor returned: the values leave
    the extractor rounded to 3 places, so the second rounding in the
    updater changes nothing, and the appended row holds the extracted date,
    registered, eligible and total as they are. *)
Theorem appended_row_stores_extracted_values :
  forall (sheet : Sheet) (w : World) (d : option string)
         (registered eligible total : pyfloat) (row : LedgerRow),
    parse_sheet sheet = Ok (d, registered, eligible, total) ->
    appended w (update_master_csv d registered eligible total w).2 row ->
    Activity_Date row = d /\
    Registered row = registered /\
    Eligible row = eligible /\
    Total row = total.
Proof.
  intros sheet w d reg elig tot row Hp Happ.
  unfold parse_sheet, mbind, res_bind in Hp.
  destruct (get_clean_val sheet "TOTAL REGISTERED") as [r |] eqn:Hr; [| discriminate].
  destruct (get_clean_val sheet "TOTAL ELIGIBLE") as [e |] eqn:He; [| discriminate].
  destruct (get_clean_val sheet "COMBINED TOTAL") as [t |] eqn:Ht; [| discriminate].
  injection Hp as <- <- <- <-.
  apply get_clean_val_rounded in Hr, He, Ht.
  apply update_appended in Happ.
  assert (Hf : Activity_Date row = find_date sheet /\ Registered row = round_nd r 3 /\
               Eligible row = round_nd e 3 /\ Total row = round_nd t 3).
  { destruct (csv_file w).
    - destruct Happ as (first & last_ & _ & _ & Hn).
      apply new_row_fields in Hn. tauto.
    - apply new_row_fields in Happ. tauto. }
  rewrite Hr, He, Ht in Hf. exact Hf.
Qed.

Lemma appended_row_stores_extracted_values_witness :
  exists row,
    appended world_day1
      (update_master_csv (Some "1/16/2024") (Fin (298000001 # 2)) (Fin 100500000)
         (Fin (499000001 # 2)) world_day1).2 row /\
    Activity_Date row = Some "1/16/2024" /\
    Registered row = Fin (298000001 # 2) /\
    Eligible row = Fin 100500000 /\
    Total row = Fin (499000001 # 2).
Proof.
  eexists. split; [reflexivity |].
  apply (appended_row_stores_extracted_values sheet_next world_day1);
    reflexivity.
Defined.








(** ** The archive name *)

Lemma digit_char_injective a b :
  0 <= a <= 9 -> 0 <= b <= 9 -> digit_char a = digit_char b -> a = b.
Proof.
  intros Ha Hb H.
  destruct (digit_char_is_digit a Ha) as (_ & _ & Va).
  destruct (digit_char_is_digit b Hb) as (_ & _ & Vb).
  rewrite <- Va, <- Vb, H. reflexivity.
Qed.

Lemma pad2_injective a b :
  0 <= a <= 99 -> 0 <= b <= 99 -> pad2 a = pad2 b -> a = b.
Proof.
  intros Ha Hb H. unfold pad2 in H. injection H as H1 H0.
  assert (Hmod : forall n, 0 <= n mod 10 <= 9)
    by (intros n; pose proof (Z.mod_pos_bound n 10); lia).
  apply digit_char_injective in H1; [| apply Hmod | apply Hmod].
  apply digit_char_injective in H0; [| apply Hmod | apply Hmod].
  clear Hmod. Z.div_mod_to_equations. lia.
Qed.

(** X8. Two calendar dates get the same archive name exactly when they
    are the same day of the same month in years that agree on their last
    two digits: the name never confuses two days of one century, and it
    does confuse days a hundred years apart. *)
Theorem archive_name_identifies_the_day :
  forall (dt dt' : datetime),
    valid_date (year dt) (month dt) (day dt) = true ->
    valid_date (year dt') (month dt') (day dt') = true ->
    (strftime dt = strftime dt' <->
     year dt mod 100 = year dt' mod 100 /\ month dt = month dt' /\ day dt = day dt').
Proof.
  intros [y m d] [y' m' d'] Hv Hv'. simpl in *.
  assert (Hr : forall y m d, valid_date y m d = true -> 1 <= m <= 12 /\ 1 <= d <= 31).
  { clear. intros y m d H. unfold valid_date, days_in_month in H.
    repeat (apply andb_prop in H as [H ?]).
    destruct (m =? 2)%Z; [destruct (is_leap y) |]; [lia | lia |].
    destruct (_ || _); lia. }
  apply Hr in Hv, Hv'.
  split.
  - unfold strftime. cbn [year month day]. intros H.
    cbv [String.append] in H.
    injection H as H. 
    repeat match goal with
           | H : String _ _ = String _ _ |- _ => injection H as ? H
           end.
    assert (Hy : pad2 (y mod 100) = pad2 (y' mod 100)) by (unfold pad2; congruence).
    assert (Hm : pad2 m = pad2 m') by (unfold pad2; congruence).
    assert (Hd : pad2 d = pad2 d') by (unfold pad2; congruence).
    assert (Hmod : forall n, 0 <= n mod 100 <= 99)
      by (intros n; pose proof (Z.mod_pos_bound n 100); lia).
    apply pad2_injective in Hy; [| apply Hmod | apply Hmod].
    apply pad2_injective in Hm; [| lia | lia].
    apply pad2_injective in Hd; [| lia | lia].
    auto.
  - intros (Hy & -> & ->). unfold strftime. cbn [year month day]. rewrite Hy.
    reflexivity.
Qed.

Lemma archive_name_identifies_the_day_witness :
  strftime {| year := 1924; month := 1; day := 15 |}
  = strftime {| year := 2024; month := 1; day := 15 |} <->
  1924 mod 100 = 2024 mod 100 /\ 1 = 1 /\ 15 = 15.
Proof.
  apply (archive_name_identifies_the_day
           {| year := 1924; month := 1; day := 15 |}
           {| year := 2024; month := 1; day := 15 |}); reflexivity.
Defined.

(** ** Every way a run can end *)

(** The guard passes, faults on an absent date, or leaves through
    [exit()] after removing the download. *)
Lemma guard_cases d w f :
  temp_xls w = Some f ->
  duplicate_guard d w = (Ok tt, w) \/
  (d = None /\ duplicate_guard d w = (Raise AttributeError, w)) \/
  exists s last_,
    d = Some s /\ last (ledger w) = Some last_ /\
    strip (str_date_cell (Activity_Date last_)) = strip s /\
    duplicate_guard d w =
    (Raise SystemExit,
     set_temp None
       (add_line (Line ("Data for " +:+ s +:+ " already exists in master. Exiting.")) w)).
Proof.
  intros Hf. unfold ledger.
  destruct (csv_file w) as [rows |] eqn:Hw; [| left; apply guard_absent; exact Hw].
  destruct rows as [| r rows]; [left; apply guard_header_only; exact Hw |].
  destruct (last_is_Some r rows) as [l Hl].
  destruct d as [s |];
    [| right; left; split; [reflexivity | apply (guard_no_date (r :: rows) l); assumption]].
  destruct (string_dec (strip (str_date_cell (Activity_Date l))) (strip s)) as [He | Hne].
  - right. right. exists s, l. repeat split; try assumption.
    apply (guard_hit (r :: rows) l s f); assumption.
  - left. apply (guard_pass (r :: rows) l); assumption.
Qed.

(** The updater raises before it writes, or writes the ledger with one more
    row and then returns the archive name or raises from the date parse. *)
Lemma update_cases d reg elig tot w :
  (exists e, is_Exception e = true /\
             update_master_csv d reg elig tot w = (Raise e, w)) \/
  (exists row, Activity_Date row = d /\
               update_master_csv d reg elig tot w =
               (dt ← strptime_arg d; Ok (strftime dt),
                set_csv (ledger w ++ [row]) w)).
Proof.
  unfold ledger.
  destruct (csv_file w) as [rows |] eqn:Hw.
  - destruct rows as [| r rows].
    + left. exists IndexError. split; [reflexivity | apply update_header_only; exact Hw].
    + destruct (last_is_Some r rows) as [l Hl].
      rewrite (update_rows _ _ _ _ _ _ r l Hw eq_refl Hl).
      destruct (new_row _ _ _ _ _ _ _ _) as [row | e] eqn:Hrow.
      * right. exists row. split; [apply new_row_fields in Hrow; tauto | reflexivity].
      * left. exists e. split; [apply (new_row_raises _ _ _ _ _ _ _ _ _ Hrow) | reflexivity].
  - rewrite (update_absent _ _ _ _ _ Hw).
    destruct (new_row _ _ _ _ _ _ _ _) as [row | e] eqn:Hrow.
    + right. exists row. split; [apply new_row_fields in Hrow; tauto | reflexivity].
    + left. exists e. split; [apply (new_row_raises _ _ _ _ _ _ _ _ _ Hrow) | reflexivity].
Qed.

Lemma strptime_raises s e : strptime s = Raise e -> e = ValueError.
Proof.
  unfold strptime. intros H.
  destruct (re_match format_regex s) as [[[| c rest] g] |]; try congruence.
  destruct (group "Y" g), (group "m" g), (group "d" g); try congruence.
  destruct (valid_date _ _ _); congruence.
Qed.

Lemma strptime_arg_raises d e :
  strptime_arg d = Raise e -> is_Exception e = true.
Proof.
  destruct d as [s |]; simpl; intros H.
  - apply strptime_raises in H as ->. reflexivity.
  - injection H as <-. reflexivity.
Qed.

(** The move of the download when the archive folder is missing. *)
Lemma main_body_no_folder sheet w d reg elig tot name w2 f :
  parse_sheet sheet = Ok (d, reg, elig, tot) ->
  duplicate_guard d (downloaded sheet w) = (Ok tt, downloaded sheet w) ->
  update_master_csv d reg elig tot
    (add_line (Line "... updating CSV ... ") (downloaded sheet w)) = (Ok name, w2) ->
  temp_xls w2 = Some f ->
  historic w2 = None ->
  main_body (Some sheet) w =
  (Raise FileNotFoundError, add_line (Line "... moving xls file ...") w2).
Proof.
  intros Hp Hg Hu Hf Hh. rewrite (main_body_run _ _ _ _ _ _ Hp).
  unfold mbind at 1. unfold bind at 1. rewrite Hg. cbv beta iota.
  unfold mbind at 1. unfold bind at 1. unfold print at 1. unfold modify at 1.
  cbv beta iota.
  unfold mbind at 1. unfold bind at 1. rewrite Hu. cbv beta iota.
  unfold mbind, bind, print, modify, historic_exists, gets, remove_historic,
    rename_temp_to_historic, ret.
  simpl. rewrite Hh. simpl. rewrite Hf, Hh. reflexivity.
Qed.

(** The six ways a run on a downloaded sheet ends, with the files each
    leaves. *)
Lemma main_cases sheet w d reg elig tot :
  parse_sheet sheet = Ok (d, reg, elig, tot) ->
  let w1 := downloaded sheet w in
  let w2 := add_line (Line "... updating CSV ... ") w1 in
  (* the date is in the last row already *)
  (exists s last_,
     d = Some s /\ last (ledger w) = Some last_ /\
     strip (str_date_cell (Activity_Date last_)) = strip s /\
     main (Some sheet) w =
     (Raise SystemExit,
      set_temp None
        (add_line (Line ("Data for " +:+ s +:+ " already exists in master. Exiting."))
           w1))) \/
  (* the guard faults on the absent date *)
  (d = None /\
   main (Some sheet) w = (Ok tt, add_line (ErrorLine AttributeError) w1)) \/
  (* the updater raises before it writes *)
  (exists e,
     is_Exception e = true /\
     update_master_csv d reg elig tot w2 = (Raise e, w2) /\
     main (Some sheet) w = (Ok tt, add_line (ErrorLine e) w2)) \/
  (* the row is written *)
  (exists row,
     Activity_Date row = d /\
     update_master_csv d reg elig tot w2 =
     (dt ← strptime_arg d; Ok (strftime dt), set_csv (ledger w ++ [row]) w2) /\
     let w3 := set_csv (ledger w ++ [row]) w2 in
     (* and the date does not parse *)
     (exists e,
        strptime_arg d = Raise e /\
        main (Some sheet) w = (Ok tt, add_line (ErrorLine e) w3)) \/
     (exists dt,
        strptime_arg d = Ok dt /\
        let w4 := add_line (Line "... moving xls file ...") w3 in
        (* and the archive folder is missing *)
        (historic w = None /\
         main (Some sheet) w = (Ok tt, add_line (ErrorLine FileNotFoundError) w4)) \/
        (* and the download is archived *)
        (exists h,
           historic w = Some h /\
           main (Some sheet) w =
           (Ok tt,
            add_line (Line "Done!")
              (set_temp None (set_historic (<[strftime dt := sheet]> h) w4)))))).
Proof.
  intros Hp w1 w2.
  assert (Herr : forall e w', main_body (Some sheet) w = (Raise e, w') ->
            is_Exception e = true ->
            main (Some sheet) w = (Ok tt, add_line (ErrorLine e) w')).
  { intros e w' Hb He. unfold main. apply (run_handler _ _ e); assumption. }
  destruct (guard_cases d w1 sheet eq_refl)
    as [Hg | [[-> Hg] | (s & l & -> & Hl & Heq & Hg)]].
  - destruct (update_cases d reg elig tot w2) as [(e & He & Hu) | (row & Hdate & Hu)].
    + right. right. left. exists e. split; [exact He |]. split; [exact Hu |].
      apply Herr; [| exact He].
      apply (main_body_update_raises _ _ _ _ _ _ _ _ Hp Hg Hu).
    + right. right. right. exists row. split; [exact Hdate |].
      change (ledger w2) with (ledger w) in Hu. split; [exact Hu |].
      destruct (strptime_arg d) as [dt | e] eqn:Hd.
      * right. exists dt. split; [reflexivity |].
        destruct (historic w) as [h |] eqn:Hh.
        -- right. exists h. split; [reflexivity |].
           unfold main, try_except_Exception.
           rewrite (main_body_update_returns sheet w d reg elig tot (strftime dt)
                      (set_csv (ledger w ++ [row]) w2) sheet h Hp Hg Hu eq_refl Hh).
           reflexivity.
        -- left. split; [reflexivity |].
           apply Herr; [| reflexivity].
           apply (main_body_no_folder sheet w d reg elig tot (strftime dt)
                    (set_csv (ledger w ++ [row]) w2) sheet Hp Hg Hu eq_refl Hh).
      * left. exists e. split; [reflexivity |].
        apply Herr; [| apply (strptime_arg_raises _ _ Hd)].
        apply (main_body_update_raises _ _ _ _ _ _ _ _ Hp Hg Hu).
  - right. left.
    split; [reflexivity |]. apply Herr; [| reflexivity].
    rewrite (main_body_run _ _ _ _ _ _ Hp).
    unfold mbind at 1. unfold bind at 1. fold w1. rewrite Hg. reflexivity.
  - left. exists s, l. change (ledger w1) with (ledger w) in Hl.
    repeat split; try assumption.
    unfold main, try_except_Exception. rewrite (main_body_run _ _ _ _ _ _ Hp).
    unfold mbind at 1. unfold bind at 1. fold w1. rewrite Hg. reflexivity.
Qed.

(** A world whose ledger has grown is another world. *)
Lemma set_csv_grown w w2 row :
  csv_file w2 = csv_file w -> set_csv (ledger w ++ [row]) w2 <> w2.
Proof.
  intros Hw H. apply (f_equal csv_file) in H. simpl in H. rewrite Hw in H.
  unfold ledger in H. destruct (csv_file w) as [rows |]; [| discriminate].
  injection H as H. symmetry in H. destruct (not_grown _ _ H).
Qed.

(** X9. Whatever the download and the files, a run appends at most one
    row and rewrites none: the ledger afterwards is the ledger before, or
    the ledger before with one row at its end. The archive folder is as
    before, or holds the download under one name with every other file
    kept, and then the temporary file is gone. *)
Theorem run_appends_at_most_one_row :
  forall (remote : option Sheet) (w : World),
    let w' := (main remote w).2 in
    (csv_file w' = csv_file w \/
     exists row, csv_file w' = Some (ledger w ++ [row])%list) /\
    (historic w' = historic w \/
     exists sheet h name,
       remote = Some sheet /\ historic w = Some h /\
       historic w' = Some (<[name := sheet]> h) /\ temp_xls w' = None).
Proof.
  intros [sheet |] w w'; [| split; left; reflexivity].
  destruct (parse_sheet_returns sheet) as (reg & elig & tot & Hp).
  destruct (main_cases sheet w _ _ _ _ Hp)
    as [(s & l & _ & _ & _ & Hm) | [(_ & Hm) | [(e & _ & _ & Hm)
        | (row & _ & _ & [(e & _ & Hm) | (dt & _ & [(_ & Hm) | (h & Hh & Hm)])])]]];
    subst w'; rewrite Hm; simpl.
  - split; left; reflexivity.
  - split; left; reflexivity.
  - split; left; reflexivity.
  - split; [right; exists row; reflexivity | left; reflexivity].
  - split; [right; exists row; reflexivity | left; reflexivity].
  - split; [right; exists row; reflexivity |].
    right. exists sheet, h, (strftime dt). repeat split. exact Hh.
Qed.



(** The ledger of two days ends with three rows, two of them dated
    1/15/2024. *)
Example earlier_date_is_appended_again :
  map Activity_Date <$> csv_file (main (Some sheet_sample) world_day2).2
  = Some [Some "1/15/2024"; Some "1/16/2024"; Some "1/15/2024"].
Proof. vm_compute. reflexivity. Qed.



(** X12. The archive folder is looked for only after the ledger is
    saved: when the folder is missing, on a sheet whose date parses and
    that the guard lets through, the rename raises with the row already
    appended; the run ends in the handler and the download stays where it
    was written. *)
Theorem missing_archive_folder_is_met_after_the_append :
  forall (sheet : Sheet) (w : World) (d : string) (dt : datetime)
         (registered eligible total : pyfloat),
    parse_sheet sheet = Ok (Some d, registered, eligible, total) ->
    fresh_date w d ->
    loadable w ->
    is_finite total = true ->
    strptime d = Ok dt ->
    historic w = None ->
    exists row w',
      main (Some sheet) w = (Ok tt, w') /\
      csv_file w' = Some (ledger w ++ [row])%list /\
      Activity_Date row = Some d /\
      temp_xls w' = Some sheet /\
      historic w' = None /\
      stdout w' = (stdout (downloaded sheet w)
                   ++ [Line "... updating CSV ... "; Line "... moving xls file ...";
                       ErrorLine FileNotFoundError])%list.
Proof.
  intros sheet w d dt reg elig tot Hp Hfresh Hl Ht Hd Hh.
  set (w2 := add_line (Line "... updating CSV ... ") (downloaded sheet w)).
  destruct (update_appends_row (Some d) reg elig tot w Hl Ht) as (row0 & _ & Hrow0).
  specialize (Hrow0 w2 eq_refl).
  destruct (main_cases sheet w _ _ _ _ Hp)
    as [(s & l & Hs & Hlast & Heq & _) | [(Hnone & _) | [(e & _ & Hu & _)
        | (row & Hdate & _ & [(e & He & _) | (dt' & _ & [(_ & Hm) | (h & Hh' & _)])])]]].
  - injection Hs as <-. destruct (Hfresh l Hlast Heq).
  - discriminate.
  - fold w2 in Hu. rewrite Hrow0 in Hu. apply (f_equal snd) in Hu.
    destruct (set_csv_grown w w2 row0 eq_refl Hu).
  - simpl in He. congruence.
  - exists row. eexists. split; [exact Hm |]. simpl. rewrite Hh.
    repeat split; try assumption. rewrite <- !app_assoc. reflexivity.
  - congruence.
Qed.

Lemma missing_archive_folder_is_met_after_the_append_witness :
  exists row w',
    main (Some sheet_sample) world_no_folder = (Ok tt, w') /\
    csv_file w' = Some (ledger world_no_folder ++ [row])%list /\
    Activity_Date row = Some "1/15/2024" /\
    temp_xls w' = Some sheet_sample /\
    historic w' = None /\
    stdout w' = (stdout (downloaded sheet_sample world_no_folder)
                 ++ [Line "... updating CSV ... "; Line "... moving xls file ...";
                     ErrorLine FileNotFoundError])%list.
Proof.
  apply (missing_archive_folder_is_met_after_the_append sheet_sample world_no_folder
           "1/15/2024" {| year := 2024; month := 1; day := 15 |}
           (Fin 150000000) (Fin 100000000) (Fin 250000000)).
  - reflexivity.
  - intros last_ Hlast. discriminate.
  - exact I.
  - reflexivity.
  - reflexivity.
  - reflexivity.
Defined.

(** X13. A run on a downloaded sheet ends in one of three ways, and the
    last line printed tells which. It exits on the duplicate date with the
    download removed and nothing else changed; or it ends in the handler
    with an error line last, the download left in place and the archive
    untouched; or it prints Done! last, and then the row is appended, the
    download is in the archive and the temporary file is gone. Done! is
    never printed otherwise. *)
Theorem run_ends_in_one_of_three_ways :
  forall (sheet : Sheet) (w : World),
    let r := main (Some sheet) w in
    (r.1 = Raise SystemExit /\
     temp_xls r.2 = None /\ csv_file r.2 = csv_file w /\ historic r.2 = historic w /\
     exists s, last (stdout r.2)
               = Some (Line ("Data for " +:+ s +:+ " already exists in master. Exiting.")))
    \/
    (r.1 = Ok tt /\
     temp_xls r.2 = Some sheet /\ historic r.2 = historic w /\
     exists e, last (stdout r.2) = Some (ErrorLine e))
    \/
    (r.1 = Ok tt /\
     temp_xls r.2 = None /\
     last (stdout r.2) = Some (Line "Done!") /\
     exists row h name,
       csv_file r.2 = Some (ledger w ++ [row])%list /\
       historic w = Some h /\
       historic r.2 = Some (<[name := sheet]> h)).
Proof.
  intros sheet w r.
  destruct (parse_sheet_returns sheet) as (reg & elig & tot & Hp).
  destruct (main_cases sheet w _ _ _ _ Hp)
    as [(s & l & _ & _ & _ & Hm) | [(_ & Hm) | [(e & _ & _ & Hm)
        | (row & _ & _ & [(e & _ & Hm) | (dt & _ & [(Hh & Hm) | (h & Hh & Hm)])])]]];
    subst r; rewrite Hm; simpl.
  - left. repeat split. exists s. apply last_snoc.
  - right. left. repeat split. exists AttributeError. apply last_snoc.
  - right. left. repeat split. exists e. apply last_snoc.
  - right. left. repeat split. exists e. apply last_snoc.
  - right. left. repeat split. exists FileNotFoundError. apply last_snoc.
  - right. right. repeat split; [apply last_snoc |].
    exists row, h, (strftime dt). repeat split. exact Hh.
Qed.

(** ** Faults of the row computation *)




(** A zero total and a zero anchor total are stored, not raised. *)
Example zero_totals_do_not_raise :
  exists row,
    new_row (Some "1/15/2024") (Fin 5) (Fin 0) (Fin 0) (Fin 5) (Fin 0) (Fin 5) (Fin 0)
    = Ok row /\
    Pct_Registered_of_Total row = VInt 0 /\ Pct_of_Start row = VFloat (Fin 1).
Proof. eexists. split; [reflexivity |]. split; reflexivity. Qed.

(** ** Which extracted dates parse *)

Lemma digit_cases c :
  is_digit c = true ->
  c = "0"%char \/ c = "1"%char \/ c = "2"%char \/ c = "3"%char \/ c = "4"%char \/
  c = "5"%char \/ c = "6"%char \/ c = "7"%char \/ c = "8"%char \/ c = "9"%char.
Proof.
  destruct c as [[] [] [] [] [] [] [] []]; intros H; try discriminate H;
    repeat (try (left; reflexivity); right); reflexivity.
Qed.

Lemma one_or_two_digits_inv s :
  one_or_two_digits s = true ->
  (exists c1, s = String c1 "" /\ is_digit c1 = true) \/
  (exists c1 c2, s = String c1 (String c2 "") /\
                 is_digit c1 = true /\ is_digit c2 = true).
Proof.
  unfold one_or_two_digits. intros H. apply andb_prop in H as [Hd Hl].
  destruct s as [| c1 [| c2 [| c3 t]]]; simpl in Hd, Hl; try discriminate.
  - left. exists c1. apply andb_prop in Hd as [H1 _]. auto.
  - right. exists c1, c2. apply andb_prop in Hd as [H1 H2].
    apply andb_prop in H2 as [H2 _]. auto.
Qed.

Lemma four_digits_inv s :
  four_digits s = true ->
  exists c1 c2 c3 c4,
    s = String c1 (String c2 (String c3 (String c4 ""))) /\
    is_digit c1 = true /\ is_digit c2 = true /\
    is_digit c3 = true /\ is_digit c4 = true.
Proof.
  unfold four_digits. intros H. apply andb_prop in H as [Hd Hl].
  destruct s as [| c1 [| c2 [| c3 [| c4 [| c5 t]]]]]; simpl in Hl; try discriminate.
  simpl in Hd.
  apply andb_prop in Hd as [H1 Hd]. apply andb_prop in Hd as [H2 Hd].
  apply andb_prop in Hd as [H3 Hd]. apply andb_prop in Hd as [H4 _].
  exists c1, c2, c3, c4. auto.
Qed.

Ltac each_digit H :=
  apply digit_cases in H;
  repeat (destruct H as [H | H]); subst.

Ltac run_field :=
  cbv [String.append]; simpl; rewrite ?consumed_1, ?consumed_2;
  try reflexivity;
  match goal with
  | |- context [rmatch ?r ?s ?g ?k] => destruct (rmatch r s g k); reflexivity
  end.

(** [%m] and the slash on one or two digits: the month must be 1 to 12. *)
Lemma month_field {R} ms (r : regex) rest g (k : @cont R) :
  one_or_two_digits ms = true ->
  rmatch (Cat directive_m (Cat (Chr "/") r)) (ms +:+ String "/" rest) g k
  = if (1 <=? int_of_group ms)%Z && (int_of_group ms <=? 12)%Z
    then rmatch r rest (("m", ms) :: g) k
    else None.
Proof.
  intros H. unfold directive_m. rewrite !rmatch_Cat_eq, rmatch_Grp.
  apply one_or_two_digits_inv in H as [(c1 & -> & H1) | (c1 & c2 & -> & H1 & H2)].
  - each_digit H1; run_field.
  - each_digit H1; each_digit H2; run_field.
Qed.

(** [%d] and the slash on one or two digits: the day must be 1 to 31. *)
Lemma day_field {R} ds (r : regex) rest g (k : @cont R) :
  one_or_two_digits ds = true ->
  rmatch (Cat directive_d (Cat (Chr "/") r)) (ds +:+ String "/" rest) g k
  = if (1 <=? int_of_group ds)%Z && (int_of_group ds <=? 31)%Z
    then rmatch r rest (("d", ds) :: g) k
    else None.
Proof.
  intros H. unfold directive_d. rewrite !rmatch_Cat_eq, rmatch_Grp.
  apply one_or_two_digits_inv in H as [(c1 & -> & H1) | (c1 & c2 & -> & H1 & H2)].
  - each_digit H1; run_field.
  - each_digit H1; each_digit H2; run_field.
Qed.

Lemma valid_date_ranges y m d :
  valid_date y m d = true ->
  (1 <=? m)%Z && (m <=? 12)%Z = true /\ (1 <=? d)%Z && (d <=? 31)%Z = true.
Proof.
  unfold valid_date, days_in_month. intros H.
  repeat (apply andb_prop in H as [H ?]).
  assert (d <= 31).
  { destruct (m =? 2)%Z; [destruct (is_leap y) |]; [lia | lia |].
    destruct (_ || _); lia. }
  split; apply andb_true_intro; split; lia.
Qed.

(** On a string of the shape of the date pattern, [strptime] returns the
    calendar date the fields spell when they make one, and raises
    otherwise. *)
Lemma strptime_on_date_shape ms ds ys :
  one_or_two_digits ms = true ->
  one_or_two_digits ds = true ->
  four_digits ys = true ->
  strptime (ms +:+ "/" +:+ ds +:+ "/" +:+ ys)
  = if valid_date (int_of_group ys) (int_of_group ms) (int_of_group ds)
    then Ok {| year := int_of_group ys; month := int_of_group ms;
               day := int_of_group ds |}
    else Raise ValueError.
Proof.
  intros Hm Hd Hy.
  destruct (four_digits_inv ys Hy) as (c1 & c2 & c3 & c4 & Hys & D1 & D2 & D3 & D4).
  unfold strptime, re_match, format_regex. simpl cat.
  change ("/" +:+ ds +:+ "/" +:+ ys) with (String "/" (ds +:+ String "/" ys)).
  rewrite (month_field ms) by exact Hm.
  destruct ((1 <=? int_of_group ms)%Z && (int_of_group ms <=? 12)%Z) eqn:Rm.
  - rewrite (day_field ds) by exact Hd.
    destruct ((1 <=? int_of_group ds)%Z && (int_of_group ds <=? 31)%Z) eqn:Rd.
    + rewrite Hys at 1. rewrite year_at_end by assumption. rewrite <- Hys.
      cbn [group String.eqb Ascii.eqb Bool.eqb]. reflexivity.
    + destruct (valid_date _ _ _) eqn:Hv; [| reflexivity].
      apply valid_date_ranges in Hv as [_ Hv]. congruence.
  - destruct (valid_date _ _ _) eqn:Hv; [| reflexivity].
    apply valid_date_ranges in Hv as [Hv _]. congruence.
Qed.

Lemma find_date_shaped (df : Sheet) d : find_date df = Some d -> date_shaped d.
Proof.
  induction df as [| row df IH]; intros H; [discriminate |].
  simpl in H.
  destruct (contains "Activity Date:" (join " " row)); [| exact (IH H)].
  destruct (re_search date_pattern (join " " row)) as [[m g] |] eqn:Hs; [| exact (IH H)].
  apply re_search_date in Hs as [Hshape Hg].
  assert (m = d) as -> by congruence.
  apply matches_date_shape. exact Hshape.
Qed.

(** X15. Every date the extractor returns is one the updater either
    parses into the calendar date its fields spell or rejects with
    ValueError; it parses it exactly when the fields make a calendar date:
    a month from 1 to 12, a day of that month, a year from 1 on. *)
Theorem extracted_date_parses_iff_calendar_date :
  forall (df : Sheet) (d : string),
    find_date df = Some d ->
    exists ms ds ys,
      d = ms +:+ "/" +:+ ds +:+ "/" +:+ ys /\
      strptime_arg (Some d)
      = if valid_date (int_of_group ys) (int_of_group ms) (int_of_group ds)
        then Ok {| year := int_of_group ys; month := int_of_group ms;
                   day := int_of_group ds |}
        else Raise ValueError.
Proof.
  intros df d H. apply find_date_shaped in H as (ms & ds & ys & -> & Hm & Hd & Hy).
  exists ms, ds, ys. split; [reflexivity |].
  apply strptime_on_date_shape; assumption.
Qed.

Lemma extracted_date_parses_iff_calendar_date_witness :
  exists ms ds ys,
    "13/45/2024" = ms +:+ "/" +:+ ds +:+ "/" +:+ ys /\
    strptime_arg (Some "13/45/2024")
    = if valid_date (int_of_group ys) (int_of_group ms) (int_of_group ds)
      then Ok {| year := int_of_group ys; month := int_of_group ms;
                 day := int_of_group ds |}
      else Raise ValueError.
Proof.
  apply (extracted_date_parses_iff_calendar_date sheet_bad_date "13/45/2024").
  reflexivity.
Defined.

Example calendar_samples :
  strptime "2/30/2024" = Raise ValueError /\
  strptime "0/5/2024" = Raise ValueError /\
  strptime "00/05/2024" = Raise ValueError /\
  strptime "12/31/0000" = Raise ValueError /\
  strptime "12/31/9999" = Ok {| year := 9999; month := 12; day := 31 |} /\
  strptime "02/29/1900" = Raise ValueError /\
  strptime "02/29/2000" = Ok {| year := 2000; month := 2; day := 29 |}.
Proof. repeat split; reflexivity. Qed.

(** ** What the ledger holds *)

(** The fields of a computed row are rounded and its percentages are
    tagged as the two branches of the script tag them. *)
Lemma new_row_well_formed d reg elig tot ir it lr lt row :
  new_row d reg elig tot ir it lr lt = Ok row ->
  (forall s, d = Some s -> date_shaped s) ->
  well_formed_row row.
Proof.
  unfold new_row, mbind, res_bind. intros H Hd.
  destruct (div (sub reg ir) million) as [a |]; [| discriminate].
  destruct (div (sub tot it) million) as [b |]; [| discriminate].
  destruct (if ne_zero tot then _ else _) as [v |] eqn:Hv; [| discriminate].
  destruct (div tot million) as [c |]; [| discriminate].
  destruct (if ne_zero it then _ else _) as [v' |] eqn:Hv'; [| discriminate].
  injection H as <-. unfold well_formed_row, rounded.
  cbn [Activity_Date Registered Eligible Total Regi_Daily_Change Daily_Change
       Reg_Monthly_Change Month_Change Reg_Monthly_Change_In_Millions
       Month_Change_in_Millions Pct_Registered_of_Total Total_In_Millions
       Pct_of_Start].
  split; [exact Hd |].
  repeat (split; [apply round_nd_idempotent |]).
  split.
  - destruct (ne_zero tot).
    + destruct (div reg tot) as [ratio |]; [| discriminate].
      injection Hv as <-. left. eexists. split; [reflexivity |].
      apply round_nd_idempotent.
    + injection Hv as <-. right. reflexivity.
  - destruct (ne_zero it).
    + destruct (div tot it) as [ratio |]; [| discriminate].
      destruct (round_int _) as [n |]; [| discriminate].
      injection Hv' as <-. left. exists n. reflexivity.
    + injection Hv' as <-. right. reflexivity.
Qed.

(** X16. The script keeps the ledger well formed: if every row is one
    the script could have written (a date of the shape of the pattern or
    none, numbers rounded to their places, percentages a percent string or
    the bare number of the zero branch), then so is every row after a run,
    whatever the download and however the run ends. *)
Theorem run_keeps_the_ledger_well_formed :
  forall (remote : option Sheet) (w : World),
    Forall well_formed_row (ledger w) ->
    Forall well_formed_row (ledger (main remote w).2).
Proof.
  intros [sheet |] w Hwf; [| exact Hwf].
  destruct (parse_sheet_returns sheet) as (reg & elig & tot & Hp).
  destruct (main_cases sheet w _ _ _ _ Hp)
    as [(s & l & _ & _ & _ & Hm) | [(_ & Hm) | [(e & _ & _ & Hm)
        | (row & _ & Hu & Hrest)]]];
    try (rewrite Hm; exact Hwf).
  assert (Hrow : well_formed_row row).
  { assert (Happ : appended (add_line (Line "... updating CSV ... ") (downloaded sheet w))
                     (update_master_csv (find_date sheet) reg elig tot
                        (add_line (Line "... updating CSV ... ") (downloaded sheet w))).2
                     row) by (rewrite Hu; reflexivity).
    apply update_appended in Happ. simpl csv_file in Happ.
    assert (Hd : forall s, find_date sheet = Some s -> date_shaped s)
      by (intros s; apply find_date_shaped).
    destruct (csv_file w).
    - destruct Happ as (first & last_ & _ & _ & Hn).
      apply (new_row_well_formed _ _ _ _ _ _ _ _ _ Hn Hd).
    - apply (new_row_well_formed _ _ _ _ _ _ _ _ _ Happ Hd). }
  assert (Hgrown : Forall well_formed_row (ledger w ++ [row])).
  { apply Forall_app. split; [exact Hwf | constructor; [exact Hrow | constructor]]. }
  destruct Hrest as [(e & _ & Hm) | (dt & _ & [(_ & Hm) | (h & _ & Hm)])];
    rewrite Hm; exact Hgrown.
Qed.

Lemma run_keeps_the_ledger_well_formed_witness :
  Forall well_formed_row (ledger (main (Some sheet_next) world_day1).2).
Proof.
  apply (run_keeps_the_ledger_well_formed (Some sheet_next) world_day1).
  constructor; [| constructor].
  unfold well_formed_row, rounded. simpl.
  split.
  - intros d [= <-]. exists "1", "15", "2024". repeat split.
  - repeat (split; [reflexivity |]).
    split; [left; exists (Fin 60); split; reflexivity | left; exists 100; reflexivity].
Defined.

(** ** The name the updater returns *)

Lemma strptime_valid s dt :
  strptime s = Ok dt -> valid_date (year dt) (month dt) (day dt) = true.
Proof.
  unfold strptime. intros H.
  destruct (re_match format_regex s) as [[[| c rest] g] |]; try discriminate.
  destruct (group "Y" g), (group "m" g), (group "d" g); try discriminate.
  destruct (valid_date _ _ _) eqn:Hv; [| discriminate].
  injection H as <-. exact Hv.
Qed.

Lemma pad2_two_digits n :
  all_digits (pad2 n) = true /\ String.length (pad2 n) = 2%nat.
Proof.
  assert (Hmod : forall k, 0 <= k mod 10 <= 9)
    by (intros k; pose proof (Z.mod_pos_bound k 10); lia).
  destruct (digit_char_is_digit _ (Hmod (n / 10))) as (H1 & _ & _).
  destruct (digit_char_is_digit _ (Hmod n)) as (H0 & _ & _).
  unfold pad2. simpl. rewrite H1, H0. split; reflexivity.
Qed.

Lemma contains_char_cons (a c : ascii) (s : string) :
  a <> c -> contains (String a "") (String c s) = contains (String a "") s.
Proof.
  intros H. cbn [contains String.prefix].
  destruct (ascii_dec a c); [contradiction | reflexivity].
Qed.

(** X17. The updater returns a file name only for a date string that
    [strptime] parses into a calendar date, and the name is then
    Silver_Stocks. followed by three groups of two digits separated by dots
    and by .xls: it holds no path separator, so the download is moved into
    the archive folder itself. *)
Theorem returned_name_has_a_fixed_form :
  forall (d : option string) (registered eligible total : pyfloat)
         (w : World) (name : string),
    (update_master_csv d registered eligible total w).1 = Ok name ->
    exists s dt yy mm dd,
      d = Some s /\ strptime s = Ok dt /\
      valid_date (year dt) (month dt) (day dt) = true /\
      name = "Silver_Stocks." +:+ yy +:+ "." +:+ mm +:+ "." +:+ dd +:+ ".xls" /\
      (all_digits yy = true /\ String.length yy = 2%nat) /\
      (all_digits mm = true /\ String.length mm = 2%nat) /\
      (all_digits dd = true /\ String.length dd = 2%nat) /\
      contains "/" name = false.
Proof.
  intros d reg elig tot w name H.
  destruct (update_cases d reg elig tot w) as [(e & _ & Hu) | (row & _ & Hu)];
    rewrite Hu in H; [discriminate |].
  simpl in H. destruct d as [s |]; [| discriminate].
  simpl in H. destruct (strptime s) as [dt |] eqn:Hs; [| discriminate].
  injection H as <-.
  exists s, dt, (pad2 (year dt mod 100)), (pad2 (month dt)), (pad2 (day dt)).
  split; [reflexivity |]. split; [exact Hs |].
  split; [apply (strptime_valid _ _ Hs) |].
  split; [reflexivity |].
  split; [apply pad2_two_digits |]. split; [apply pad2_two_digits |].
  split; [apply pad2_two_digits |].
  assert (Hmod : forall k, 0 <= k mod 10 <= 9)
    by (intros k; pose proof (Z.mod_pos_bound k 10); lia).
  assert (Hne : forall k, "/"%char <> digit_char (k mod 10)).
  { intros k. specialize (Hmod k). revert Hmod. generalize (k mod 10).
    intros z Hz. small_Z z; discriminate. }
  unfold strftime, pad2. cbv [String.append].
  repeat (rewrite contains_char_cons; [| first [apply Hne | discriminate]]).
  reflexivity.
Qed.

Lemma returned_name_has_a_fixed_form_witness :
  exists s dt yy mm dd,
    Some "1/15/2024" = Some s /\ strptime s = Ok dt /\
    valid_date (year dt) (month dt) (day dt) = true /\
    "Silver_Stocks.24.01.15.xls"
    = "Silver_Stocks." +:+ yy +:+ "." +:+ mm +:+ "." +:+ dd +:+ ".xls" /\
    (all_digits yy = true /\ String.length yy = 2%nat) /\
    (all_digits mm = true /\ String.length mm = 2%nat) /\
    (all_digits dd = true /\ String.length dd = 2%nat) /\
    contains "/" "Silver_Stocks.24.01.15.xls" = false.
Proof.
  apply (returned_name_has_a_fixed_form (Some "1/15/2024") (Fin 150000000)
           (Fin 100000000) (Fin 250000000) world_fresh).
  reflexivity.
Defined.
